(** * Beans to Bars: the data pipeline of [app.py]

    A shallow embedding of the loader ([load_data]), the sidebar filter
    ([filtered_df]), the aggregates behind every chart and the CSV export of
    the dashboard script.

    Conventions of the embedding.
    - A pandas frame is the list of its rows, in index order; a column is the
      list of its cells.
    - A Python [float] is an exact rational or one of the IEEE special values
      [inf], [-inf], [nan]; rounding to 53 bits is not modelled, the special
      values and the rules that produce them are.
    - An [int64] column holds integers; its sums wrap around at 64 bits.
    - A Python exception is a value of [exn], a call that can raise returns a
      [result].
    - Strings are strings of 8-bit characters. *)

From Stdlib Require Import List String Ascii Bool ZArith QArith Qreduction Lia.
From Stdlib Require Import Permutation Sorted.
Import ListNotations.

Local Open Scope Z_scope.

(* ================================================================== *)
(** * Exceptions and results *)

Inductive exn : Type :=
| ValueError
| AttributeError
| LookupError
| IndexError.

Inductive result (A : Type) : Type :=
| Ok (a : A)
| Raise (e : exn).
Arguments Ok {A} a.
Arguments Raise {A} e.

Definition bind {A B : Type} (c : result A) (k : A -> result B) : result B :=
  match c with
  | Ok a => k a
  | Raise e => Raise e
  end.

Declare Scope result_scope.
Delimit Scope result_scope with result.
Notation "x <- c ;; k" := (bind c (fun x => k))
  (at level 61, c at next level, right associativity) : result_scope.

(** [traverse f l] applies [f] to the cells of [l] from the first on and
    stops at the first one that raises. *)
Fixpoint traverse {A B : Type} (f : A -> result B) (l : list A) : result (list B) :=
  match l with
  | [] => Ok []
  | a :: l' =>
      match f a with
      | Raise e => Raise e
      | Ok b =>
          match traverse f l' with
          | Raise e => Raise e
          | Ok bs => Ok (b :: bs)
          end
      end
  end.

(* ================================================================== *)
(** * Floats *)

Module Float.

Inductive float : Type :=
| Fin (q : Q)
| PInf
| NInf
| NaN.

Definition zero : float := Fin 0.

Definition of_int (z : Z) : float := Fin (inject_Z z).

Definition isnan (x : float) : bool :=
  match x with NaN => true | _ => false end.

Definition isfinite (x : float) : bool :=
  match x with Fin _ => true | _ => false end.

Definition neg (x : float) : float :=
  match x with
  | Fin q => Fin (Qred (- q))
  | PInf => NInf
  | NInf => PInf
  | NaN => NaN
  end.

(** [x + y]: [inf + -inf] is [nan], [nan] is absorbing. *)
Definition add (x y : float) : float :=
  match x, y with
  | NaN, _ | _, NaN => NaN
  | PInf, NInf | NInf, PInf => NaN
  | PInf, _ | _, PInf => PInf
  | NInf, _ | _, NInf => NInf
  | Fin a, Fin b => Fin (Qred (a + b))
  end.

(** The sign of a rational as numpy's division by zero reads it. *)
Definition sign_inf (a : Q) : float :=
  match Qcompare a 0 with
  | Gt => PInf
  | Lt => NInf
  | Eq => NaN
  end.

(** [x / y] as numpy divides float64 arrays: no exception, a zero divisor
    gives [inf], [-inf] or ([0/0]) [nan]. The divisors of this program are
    integer sums, so a zero divisor is [+0]. *)
Definition div (x y : float) : float :=
  match x, y with
  | NaN, _ | _, NaN => NaN
  | Fin a, Fin b =>
      if Qeq_bool b 0 then sign_inf a else Fin (Qred (a / b))
  | Fin _, (PInf | NInf) => Fin 0
  | PInf, Fin b => if Qle_bool 0 b then PInf else NInf
  | NInf, Fin b => if Qle_bool 0 b then NInf else PInf
  | (PInf | NInf), (PInf | NInf) => NaN
  end.

(** Numeric order, [nan] below everything: the order in which
    [sort_values] and [nlargest] leave [nan] last in a descending sort. *)
Definition leb (x y : float) : bool :=
  match x, y with
  | NaN, _ => true
  | _, NaN => false
  | NInf, _ => true
  | _, NInf => false
  | _, PInf => true
  | PInf, _ => false
  | Fin a, Fin b => Qle_bool a b
  end.

Definition ltb (x y : float) : bool := negb (leb y x).

Definition eqb (x y : float) : bool := leb x y && leb y x.

End Float.
Export Float.

(** [int64] arithmetic wraps around. *)
Definition int64 (z : Z) : Z := (z + 2 ^ 63) mod 2 ^ 64 - 2 ^ 63.

(** [Series.sum()] of an [int64] column. *)
Definition sum_int64 (l : list Z) : Z :=
  fold_left (fun acc x => int64 (acc + x)) l 0.

(** [Series.sum()] of a float column ([skipna=True]): [nan] cells are
    skipped, the sum of no cell is [0.0]. *)
Definition sum (l : list float) : float :=
  fold_left (fun acc x => if isnan x then acc else add acc x) l zero.

(** [Series.max()] ([skipna=True]): [nan] on a column with no number. *)
Definition max (l : list float) : float :=
  fold_left (fun acc x => if isnan x then acc
                          else if isnan acc then x
                          else if ltb acc x then x else acc) l NaN.

(* ================================================================== *)
(** * Characters and strings *)

Local Open Scope char_scope.

Definition code (c : ascii) : Z := Z.of_N (N_of_ascii c).

Definition between (lo hi c : ascii) : bool :=
  ((code lo <=? code c) && (code c <=? code hi))%Z.

Definition is_digit (c : ascii) : bool := between "0" "9" c.

Definition digit_value (c : ascii) : Z := code c - code "0".

(** The whitespace [float()] strips: space, [\t \n \v \f \r] and the
    separators [\x1c] to [\x1f]. *)
Definition is_space (c : ascii) : bool :=
  ((code c =? 32) || ((9 <=? code c) && (code c <=? 13))
   || ((28 <=? code c) && (code c <=? 31)))%Z.

Definition lower (c : ascii) : ascii :=
  if between "A" "Z" c then ascii_of_N (N_of_ascii c + 32) else c.

Fixpoint lstrip (s : list ascii) : list ascii :=
  match s with
  | c :: s' => if is_space c then lstrip s' else s
  | [] => []
  end.

Definition strip (s : list ascii) : list ascii :=
  rev (lstrip (rev (lstrip s))).

Definition ascii_list_eqb (a b : list ascii) : bool :=
  String.eqb (string_of_list_ascii a) (string_of_list_ascii b).

(** The decimal digit of [n mod 10]. *)
Definition digit_char (n : Z) : ascii :=
  ascii_of_N (Z.to_N (code "0" + n mod 10)).

Definition two_digits (n : Z) : list ascii :=
  [digit_char (n / 10); digit_char n].

Definition four_digits (n : Z) : list ascii :=
  [digit_char (n / 1000); digit_char (n / 100); digit_char (n / 10); digit_char n].

(** The value of a run of decimal digits. *)
Definition int_of_digits (ds : list ascii) : Z :=
  fold_left (fun acc c => 10 * acc + digit_value c) ds 0.

(* ------------------------------------------------------------------ *)
(** ** [float(s)]

    Python's grammar: optional sign, then [inf], [infinity] or [nan] in any
    case, or a decimal number with an optional fraction and exponent, where
    single underscores may separate digits; surrounding whitespace is
    ignored. *)

Definition starts_with_digit (s : list ascii) : bool :=
  match s with
  | c :: _ => is_digit c
  | [] => false
  end.

(** digitpart ::= digit (["_"] digit)*, as far as it goes: the digits read
    and what follows them. *)
Fixpoint digitpart (s : list ascii) : list ascii * list ascii :=
  match s with
  | c :: s1 =>
      if is_digit c then
        let '(ds, r) :=
          match s1 with
          | u :: s2 =>
              if (u =? "_") && starts_with_digit s2 then digitpart s2 else digitpart s1
          | [] => ([], [])
          end in
        (c :: ds, r)
      else ([], s)
  | [] => ([], [])
  end.

(** exponent ::= ("e" | "E") [sign] digitpart, to the end of the text. *)
Definition exponent (s : list ascii) : option Z :=
  match s with
  | [] => Some 0
  | e :: s1 =>
      if lower e =? "e" then
        let '(sgn, s2) :=
          match s1 with
          | "+" :: s2 => (1, s2)
          | "-" :: s2 => (-1, s2)
          | _ => (1, s1)
          end in
        match digitpart s2 with
        | ((_ :: _) as ds, []) => Some (sgn * int_of_digits ds)
        | _ => None
        end
      else None
  end.

(** number ::= [digitpart] "." digitpart | digitpart ["."], then the
    exponent. *)
Definition floatnumber (s : list ascii) : option Q :=
  let '(ip, r1) := digitpart s in
  let '(fp, r2) :=
    match r1 with
    | "." :: r => digitpart r
    | _ => ([], r1)
    end in
  match ip, fp with
  | [], [] => None
  | _, _ =>
      match exponent r2 with
      | Some e =>
          Some (Qred (inject_Z (int_of_digits (ip ++ fp)%list)
                      * Qpower (inject_Z 10) (e - Z.of_nat (List.length fp))))
      | None => None
      end
  end.

Definition absfloatvalue (s : list ascii) : option float :=
  let l := map lower s in
  if ascii_list_eqb l (list_ascii_of_string "inf")
     || ascii_list_eqb l (list_ascii_of_string "infinity") then Some PInf
  else if ascii_list_eqb l (list_ascii_of_string "nan") then Some NaN
  else match floatnumber s with
       | Some q => Some (Fin q)
       | None => None
       end.

Definition float_of_string (s : string) : option float :=
  match strip (list_ascii_of_string s) with
  | "+" :: r => absfloatvalue r
  | "-" :: r => option_map neg (absfloatvalue r)
  | r => absfloatvalue r
  end.

(** [re.sub('[$,]', '', s)]: every dollar sign and every comma goes. *)
Fixpoint str_replace (s : string) : string :=
  match s with
  | EmptyString => EmptyString
  | String c s' =>
      if (c =? "$") || (c =? ",") then str_replace s' else String c (str_replace s')
  end.

Local Close Scope char_scope.
Local Open Scope string_scope.
Local Open Scope Z_scope.

(* ================================================================== *)
(** * Dates *)

Record Timestamp : Type := { year : Z; month : Z; day : Z }.

Definition is_leap (y : Z) : bool :=
  ((y mod 4 =? 0) && negb (y mod 100 =? 0)) || (y mod 400 =? 0).

Definition days_in_month (y m : Z) : Z :=
  if m =? 2 then (if is_leap y then 29 else 28)
  else if (m =? 4) || (m =? 6) || (m =? 9) || (m =? 11) then 30
  else 31.

Definition month_abbr : list string :=
  ["Jan"; "Feb"; "Mar"; "Apr"; "May"; "Jun";
   "Jul"; "Aug"; "Sep"; "Oct"; "Nov"; "Dec"].

Definition month_names : list string :=
  ["January"; "February"; "March"; "April"; "May"; "June";
   "July"; "August"; "September"; "October"; "November"; "December"].

Definition weekday_names : list string :=
  ["Monday"; "Tuesday"; "Wednesday"; "Thursday"; "Friday"; "Saturday"; "Sunday"].

(** [Series.dt.month_name()], [Series.dt.year]. *)
Definition month_name (d : Timestamp) : string :=
  nth (Z.to_nat (month d - 1)) month_names "".

(** Days since 1970-01-01 in the proleptic Gregorian calendar. *)
Definition days_from_civil (d : Timestamp) : Z :=
  let y := if month d <=? 2 then year d - 1 else year d in
  let era := y / 400 in
  let yoe := y - era * 400 in
  let mp := if month d <=? 2 then month d + 9 else month d - 3 in
  let doy := (153 * mp + 2) / 5 + day d - 1 in
  let doe := yoe * 365 + yoe / 4 - yoe / 100 + doy in
  era * 146097 + doe - 719468.

(** [Series.dt.day_name()]: 1970-01-01 was a Thursday. *)
Definition day_name (d : Timestamp) : string :=
  nth (Z.to_nat ((days_from_civil d + 3) mod 7)) weekday_names "".

(** [Series.dt.strftime('%b %d, %Y')]. *)
Definition strftime (d : Timestamp) : string :=
  nth (Z.to_nat (month d - 1)) month_abbr ""
  ++ " " ++ string_of_list_ascii (two_digits (day d))
  ++ ", " ++ string_of_list_ascii (four_digits (year d)).

(** The text [to_csv] writes for a timestamp at midnight: [YYYY-MM-DD]. *)
Definition isoformat (d : Timestamp) : string :=
  string_of_list_ascii
    (four_digits (year d) ++ ["-"%char] ++ two_digits (month d)
     ++ ["-"%char] ++ two_digits (day d))%list.

(* ------------------------------------------------------------------ *)
(** ** [pd.to_datetime(_, format='%d-%b-%y', errors='coerce')]

    The format is compiled to the regular expression
    [(3[0-1]|[1-2]\d|0[1-9]|[1-9]| [1-9])-(jan|...|dec)-(\d\d)], matched
    without regard to case against the whole text. *)

Local Open Scope char_scope.

(** A sequence of character classes matched at the head of [s]: the text
    matched and the rest. *)
Fixpoint classes (ps : list (ascii -> bool)) (s : list ascii)
  : option (list ascii * list ascii) :=
  match ps, s with
  | [], _ => Some ([], s)
  | p :: ps', c :: s' =>
      if p c then
        match classes ps' s' with
        | Some (m, r) => Some (c :: m, r)
        | None => None
        end
      else None
  | _ :: _, [] => None
  end.

(** The alternatives of [%d], in the order the expression tries them. *)
Definition directive_d : list (list (ascii -> bool)) :=
  [ [Ascii.eqb "3"; between "0" "1"];
    [between "1" "2"; is_digit];
    [Ascii.eqb "0"; between "1" "9"];
    [between "1" "9"];
    [Ascii.eqb " "; between "1" "9"] ].

(** [%b]: three letters that spell a month abbreviation in any case; the
    month's number. *)
Fixpoint index_of (x : string) (l : list string) (i : Z) : option Z :=
  match l with
  | [] => None
  | y :: l' => if String.eqb x y then Some i else index_of x l' (i + 1)
  end.

Definition directive_b (s : list ascii) : option (Z * list ascii) :=
  match s with
  | a :: b :: c :: r =>
      match index_of (string_of_list_ascii (map lower [a; b; c]))
                     (map (fun m => string_of_list_ascii
                                      (map lower (list_ascii_of_string m))) month_abbr) 1 with
      | Some m => Some (m, r)
      | None => None
      end
  | _ => None
  end.

(** [%y]: two digits; 69 to 99 are 1969 to 1999, 00 to 68 are 2000 to 2068. *)
Definition directive_y (s : list ascii) : option (Z * list ascii) :=
  match classes [is_digit; is_digit] s with
  | Some (m, r) =>
      let y := int_of_digits m in
      Some (if (y <=? 68)%Z then 2000 + y else 1900 + y, r)
  | None => None
  end.

(** What follows the day: [-%b-%y] and the end of the text. *)
Definition after_day (s : list ascii) : option (Z * Z) :=
  match s with
  | "-" :: s1 =>
      match directive_b s1 with
      | Some (m, "-" :: s2) =>
          match directive_y s2 with
          | Some (y, []) => Some (m, y)
          | _ => None
          end
      | _ => None
      end
  | _ => None
  end.

(** The first alternative of [%d] after which the rest of the expression
    matches. *)
Fixpoint strptime (alts : list (list (ascii -> bool))) (s : list ascii)
  : option Timestamp :=
  match alts with
  | [] => None
  | alt :: alts' =>
      match classes alt s with
      | Some (m, r) =>
          match after_day r with
          | Some (mo, y) =>
              Some {| year := y; month := mo;
                      day := int_of_digits (filter is_digit m) |}
          | None => strptime alts' s
          end
      | None => strptime alts' s
      end
  end.

Local Close Scope char_scope.

(** A text that does not match, or names a day the month does not have,
    is [NaT]: [None]. *)
Definition to_datetime (s : string) : option Timestamp :=
  match strptime directive_d (list_ascii_of_string s) with
  | Some d =>
      if (1 <=? day d) && (day d <=? days_in_month (year d) (month d))
      then Some d else None
  | None => None
  end.

(* ================================================================== *)
(** * Frames *)

(** A cell of the [Amount] column as [pd.read_csv] leaves it: the text of
    the field, or a number where the field read as one. *)
Inductive cell : Type :=
| str (s : string)
| num (f : float).

(** A row of the frame read from [Chocolate Sales.csv]. *)
Record RawRow : Type := {
  raw_Sales_Person : string;
  raw_Country : string;
  raw_Product : string;
  raw_Date : string;
  raw_Amount : cell;
  raw_Boxes_Shipped : Z
}.

(** A row of the frame [load_data] returns. *)
Record Row : Type := {
  Sales_Person : string;
  Country : string;
  Product : string;
  Date : Timestamp;
  Amount : float;
  Boxes_Shipped : Z;
  Month : string;
  Year : Z;
  Revenue_per_Box : float
}.

Definition DataFrame : Type := list Row.

(* ================================================================== *)
(** * [load_data] *)

Definition is_str (c : cell) : bool :=
  match c with str _ => true | num _ => false end.

(** [read_csv] gives a column the [object] dtype when it is empty or holds
    a field that is no number; [Series.str] raises on any other dtype. *)
Definition is_object_dtype (col : list cell) : bool :=
  match col with
  | [] => true
  | _ => existsb is_str col
  end.

Definition str_accessor (col : list cell) : result (list cell) :=
  if is_object_dtype col then Ok col else Raise AttributeError.

(** [.str.replace('[$,]', '', regex=True)], cell by cell: a cell that is
    no text becomes [nan]. *)
Definition replace (c : cell) : cell :=
  match c with
  | str s => str (str_replace s)
  | num _ => num NaN
  end.

(** [.astype(float)], cell by cell: [float(s)] raises [ValueError] on a
    text that is no number. *)
Definition astype_float (c : cell) : result float :=
  match c with
  | str s =>
      match float_of_string s with
      | Some f => Ok f
      | None => Raise ValueError
      end
  | num f => Ok f
  end.

(** [df.dropna(subset=['Date'])] on the frame with its converted [Amount]
    and [Date] columns. *)
Fixpoint dropna (df : list (RawRow * (float * option Timestamp)))
  : list (RawRow * float * Timestamp) :=
  match df with
  | [] => []
  | (r, (a, Some d)) :: df' => (r, a, d) :: dropna df'
  | (_, (_, None)) :: df' => dropna df'
  end.

(** The columns [Month], [Year] and [Revenue per Box] of a kept row. *)
Definition derive (x : RawRow * float * Timestamp) : Row :=
  let '(r, a, d) := x in
  {| Sales_Person := raw_Sales_Person r;
     Country := raw_Country r;
     Product := raw_Product r;
     Date := d;
     Amount := a;
     Boxes_Shipped := raw_Boxes_Shipped r;
     Month := month_name d;
     Year := year d;
     Revenue_per_Box := div a (of_int (raw_Boxes_Shipped r)) |}.

Local Open Scope result_scope.

Definition load_data (csv : list RawRow) : result DataFrame :=
  col <- str_accessor (map raw_Amount csv) ;;
  amounts <- traverse astype_float (map replace col) ;;
  let dates := map (fun r => to_datetime (raw_Date r)) csv in
  let df := dropna (combine csv (combine amounts dates)) in
  Ok (map derive df).

(* ================================================================== *)
(** * The sidebar filter *)

(** [Series.isin(values)]. *)
Definition isin (values : list string) (x : string) : bool :=
  existsb (String.eqb x) values.

(** [mask1 & mask2]. *)
Fixpoint mask_and (m1 m2 : list bool) : list bool :=
  match m1, m2 with
  | b1 :: m1', b2 :: m2' => (b1 && b2) :: mask_and m1' m2'
  | _, _ => []
  end.

(** [df[mask]]: the rows whose mask cell is [True], in index order. *)
Fixpoint boolean_index {A : Type} (df : list A) (mask : list bool) : list A :=
  match df, mask with
  | r :: df', b :: mask' =>
      if b then r :: boolean_index df' mask' else boolean_index df' mask'
  | _, _ => []
  end.

Definition filtered_df (df : DataFrame) (countries products : list string) : DataFrame :=
  boolean_index df
    (mask_and (map (fun r => isin countries (Country r)) df)
              (map (fun r => isin products (Product r)) df)).

(* ================================================================== *)
(** * Group-by *)

(** What a grouping key needs: an order. [groupby] sorts its groups. *)
Class Key (K : Type) : Type := { cmp : K -> K -> comparison }.

#[export] Instance Key_Z : Key Z := {| cmp := Z.compare |}.

#[export] Instance Key_string : Key string := {| cmp := String.compare |}.

(** Two keys: the order of the first, then of the second. *)
#[export] Instance Key_pair {A B : Type} `{Key A} `{Key B} : Key (A * B) :=
  {| cmp := fun p q =>
       match cmp (fst p) (fst q) with
       | Eq => cmp (snd p) (snd q)
       | c => c
       end |}.

#[export] Instance Key_Timestamp : Key Timestamp :=
  {| cmp := fun d e => cmp (year d, (month d, day d)) (year e, (month e, day e)) |}.

Definition key_eqb {K : Type} `{Key K} (a b : K) : bool :=
  match cmp a b with Eq => true | _ => false end.

Section GroupBy.
Context {K : Type} `{Key K} {R : Type}.
Variable by_ : R -> K.

(** The keys met so far, ascending and without repeats. *)
Fixpoint insert_key (k : K) (ks : list K) : list K :=
  match ks with
  | [] => [k]
  | k' :: ks' =>
      match cmp k k' with
      | Lt => k :: ks
      | Eq => ks
      | Gt => k' :: insert_key k ks'
      end
  end.

Definition group_keys (rows : list R) : list K :=
  fold_right (fun r ks => insert_key (by_ r) ks) [] rows.

(** [df.groupby(by)]: one group per key, keys ascending, the rows of a
    group in index order. *)
Definition groupby (rows : list R) : list (K * list R) :=
  map (fun k => (k, filter (fun r => key_eqb (by_ r) k) rows)) (group_keys rows).
End GroupBy.

(** [df.groupby(by)['Amount'].sum()]. *)
Definition groupby_Amount_sum {K : Type} `{Key K} (by_ : Row -> K) (df : DataFrame)
  : list (K * float) :=
  map (fun g => (fst g, sum (map Amount (snd g)))) (groupby by_ df).

(** [df.groupby(by).agg({'Amount': 'sum', 'Boxes Shipped': 'sum'})]. *)
Definition groupby_agg {K : Type} `{Key K} (by_ : Row -> K) (df : DataFrame)
  : list (K * float * Z) :=
  map (fun g => (fst g, sum (map Amount (snd g)),
                 sum_int64 (map Boxes_Shipped (snd g)))) (groupby by_ df).

Section Series.
Context {K : Type}.

(** A descending sort that keeps the order of appearance among equal
    values and leaves [nan] last. *)
Fixpoint insert_desc (x : K * float) (l : list (K * float)) : list (K * float) :=
  match l with
  | [] => [x]
  | y :: l' => if leb (snd y) (snd x) then x :: l else y :: insert_desc x l'
  end.

Definition sort_values_desc (s : list (K * float)) : list (K * float) :=
  fold_right insert_desc [] s.

(** [Series.nlargest(n)] ([keep='first']). *)
Definition nlargest (n : nat) (s : list (K * float)) : list (K * float) :=
  firstn n (sort_values_desc s).

(** The label of the first largest value that is not [nan]. *)
Definition argmax (s : list (K * float)) : option (K * float) :=
  fold_left (fun acc x =>
               if isnan (snd x) then acc
               else match acc with
                    | None => Some x
                    | Some b => if ltb (snd b) (snd x) then Some x else acc
                    end) s None.

(** [Series.idxmax()]: [ValueError] on an empty series. *)
Definition idxmax (s : list (K * float)) : result (option K) :=
  match s with
  | [] => Raise ValueError
  | _ => Ok (option_map fst (argmax s))
  end.
End Series.

(* ================================================================== *)
(** * The dashboard's figures and tables *)

Definition total_sales (filtered_df : DataFrame) : float :=
  sum (map Amount filtered_df).

Definition total_boxes (filtered_df : DataFrame) : Z :=
  sum_int64 (map Boxes_Shipped filtered_df).

(** [total_sales / total_boxes if total_boxes > 0 else 0]. *)
Definition avg_revenue (filtered_df : DataFrame) : float :=
  if total_boxes filtered_df >? 0
  then div (total_sales filtered_df) (of_int (total_boxes filtered_df))
  else of_int 0.

Definition monthly_sales (filtered_df : DataFrame) : list (Z * string * float) :=
  groupby_Amount_sum (fun r => (Year r, Month r)) filtered_df.

Definition daily_sales (filtered_df : DataFrame) : list (Timestamp * float) :=
  groupby_Amount_sum Date filtered_df.

Definition top_combos (filtered_df : DataFrame) : list (string * string * float) :=
  nlargest 15 (groupby_Amount_sum (fun r => (Country r, Product r)) filtered_df).

(** [filtered_df.groupby('Country')['Amount'].sum()]. *)
Definition country_sales (filtered_df : DataFrame) : list (string * float) :=
  groupby_Amount_sum Country filtered_df.

Definition top_products (filtered_df : DataFrame) : list (string * float) :=
  nlargest 10 (groupby_Amount_sum Product filtered_df).

Definition weekday_sales (filtered_df : DataFrame) : list (Timestamp * float * string) :=
  map (fun x => (x, day_name (fst x))) (groupby_Amount_sum Date filtered_df).

Definition top_days (filtered_df : DataFrame) : list (Timestamp * float * string) :=
  map (fun x => (x, strftime (fst x)))
      (nlargest 10 (groupby_Amount_sum Date filtered_df)).

(** A row of [growth_df] and of [ratio_df]: the key, the two sums and
    their quotient. *)
Definition with_ratio {K : Type} (x : K * float * Z) : K * float * Z * float :=
  let '(k, a, b) := x in (k, a, b, div a (of_int b)).

Definition growth_df (filtered_df : DataFrame) : list (Z * string * float * Z * float) :=
  map with_ratio (groupby_agg (fun r => (Year r, Product r)) filtered_df).

Definition ratio_df (filtered_df : DataFrame) : list (string * float * Z * float) :=
  map with_ratio (groupby_agg Product filtered_df).

Definition product_sales (filtered_df : DataFrame) : list (string * float) :=
  nlargest 10 (groupby_Amount_sum Product filtered_df).

Definition sunburst_data (filtered_df : DataFrame) : list (string * string * float) :=
  groupby_Amount_sum (fun r => (Country r, Product r)) filtered_df.

(** The "Country Performance" gauge. *)
Definition top_country (filtered_df : DataFrame) : result (option string) :=
  idxmax (country_sales filtered_df).

Definition max_sales (filtered_df : DataFrame) : float :=
  max (map snd (country_sales filtered_df)).

(** [country_sales.sum()], the second [total_sales] of the script. *)
Definition country_total_sales (filtered_df : DataFrame) : float :=
  sum (map snd (country_sales filtered_df)).

(** Lines 373 to 376 in order: the label, the largest sum, the total. *)
Definition country_performance (filtered_df : DataFrame)
  : result (option string * float * float) :=
  tc <- top_country filtered_df ;;
  Ok (tc, max_sales filtered_df, country_total_sales filtered_df).

(* ------------------------------------------------------------------ *)
(** ** The choropleth's table *)

(** A record of pycountry's database. *)
Record pycountry_Country : Type := { name : string; alpha_2 : string; alpha_3 : string }.

(** [l[0]]. *)
Definition getitem0 {A : Type} (l : list A) : result A :=
  match l with
  | x :: _ => Ok x
  | [] => Raise IndexError
  end.

Section Geo.
(** [pycountry.countries.search_fuzzy]: the records found, or an
    exception. *)
Variable search_fuzzy : string -> result (list pycountry_Country).

(** [try: return search_fuzzy(name)[0].alpha_3 / except: return None]. *)
Definition country_to_iso (country_name : string) : option string :=
  match (l <- search_fuzzy country_name ;;
         c <- getitem0 l ;;
         Ok (alpha_3 c)) with
  | Ok iso => Some iso
  | Raise _ => None
  end.

(** [country_sales] with its [ISO] column (lines 176 and 177). *)
Definition country_sales_ISO (filtered_df : DataFrame)
  : list (string * float * option string) :=
  map (fun x => (x, country_to_iso (fst x))) (country_sales filtered_df).
End Geo.

(* ------------------------------------------------------------------ *)
(** ** The export *)

(** A line of the exported file: [to_csv] writes a timestamp as
    [YYYY-MM-DD] and a number as its shortest decimal text, which reads
    back as the same number. *)
Record CsvLine : Type := {
  csv_Sales_Person : string;
  csv_Country : string;
  csv_Product : string;
  csv_Date : string;
  csv_Amount : float;
  csv_Boxes_Shipped : Z;
  csv_Month : string;
  csv_Year : Z;
  csv_Revenue_per_Box : float
}.

Definition csv_line (r : Row) : CsvLine :=
  {| csv_Sales_Person := Sales_Person r;
     csv_Country := Country r;
     csv_Product := Product r;
     csv_Date := isoformat (Date r);
     csv_Amount := Amount r;
     csv_Boxes_Shipped := Boxes_Shipped r;
     csv_Month := Month r;
     csv_Year := Year r;
     csv_Revenue_per_Box := Revenue_per_Box r |}.

(** [filtered_df.to_csv(index=False)]. *)
Definition to_csv (filtered_df : DataFrame) : list CsvLine :=
  map csv_line filtered_df.

(** [pd.read_csv] of an exported file: the [Amount] fields are numbers,
    the [Date] fields are texts; [load_data] overwrites the three derived
    columns. *)
Definition read_csv (lines : list CsvLine) : list RawRow :=
  map (fun l =>
         {| raw_Sales_Person := csv_Sales_Person l;
            raw_Country := csv_Country l;
            raw_Product := csv_Product l;
            raw_Date := csv_Date l;
            raw_Amount := num (csv_Amount l);
            raw_Boxes_Shipped := csv_Boxes_Shipped l |}) lines.

(* ------------------------------------------------------------------ *)
(** ** One run of the script below the sidebar

    The statements of the script that compute a figure or a table, in the
    order of the file; the calls that draw (plotly, streamlit) are left
    out. [Variables] are the names bound when the run ends:
    [total_sales], [monthly_sales] and [country_sales] are each bound twice
    and keep their last value. The run stops at the first statement that
    raises. *)

Record Variables : Type := {
  v_filtered_df : DataFrame;
  v_total_boxes : Z;
  v_avg_revenue : float;
  v_daily_sales : list (Timestamp * float);
  v_top_combos : list (string * string * float);
  v_top_products : list (string * float);
  v_weekday_sales : list (Timestamp * float * string);
  v_top_days : list (Timestamp * float * string);
  v_growth_df : list (Z * string * float * Z * float);
  v_ratio_df : list (string * float * Z * float);
  v_monthly_sales : list (Z * string * float);
  v_product_sales : list (string * float);
  v_sunburst_data : list (string * string * float);
  v_country_sales : list (string * float);
  v_top_country : option string;
  v_max_sales : float;
  v_total_sales : float;
  v_csv : list CsvLine
}.

Section Script.
Variable search_fuzzy : string -> result (list pycountry_Country).

Definition script (filtered_df : DataFrame) : result Variables :=
  let total_sales_81 := total_sales filtered_df in
  let total_boxes_90 := total_boxes filtered_df in
  let avg_revenue_99 :=
    if total_boxes_90 >? 0 then div total_sales_81 (of_int total_boxes_90)
    else of_int 0 in
  let monthly_sales_113 := monthly_sales filtered_df in
  let daily_sales_133 := daily_sales filtered_df in
  let top_combos_151 := top_combos filtered_df in
  let country_sales_176 := country_sales_ISO search_fuzzy filtered_df in
  let top_products_196 := top_products filtered_df in
  let weekday_sales_215 := weekday_sales filtered_df in
  let top_days_236 := top_days filtered_df in
  let growth_df_254 := growth_df filtered_df in
  let ratio_df_280 := ratio_df filtered_df in
  let monthly_sales_309 := monthly_sales filtered_df in
  let product_sales_341 := product_sales filtered_df in
  let sunburst_data_355 := sunburst_data filtered_df in
  let country_sales_373 := country_sales filtered_df in
  top_country_374 <- idxmax country_sales_373 ;;
  let max_sales_375 := max (map snd country_sales_373) in
  let total_sales_376 := sum (map snd country_sales_373) in
  let csv_400 := to_csv filtered_df in
  Ok {| v_filtered_df := filtered_df;
        v_total_boxes := total_boxes_90;
        v_avg_revenue := avg_revenue_99;
        v_daily_sales := daily_sales_133;
        v_top_combos := top_combos_151;
        v_top_products := top_products_196;
        v_weekday_sales := weekday_sales_215;
        v_top_days := top_days_236;
        v_growth_df := growth_df_254;
        v_ratio_df := ratio_df_280;
        v_monthly_sales := monthly_sales_309;
        v_product_sales := product_sales_341;
        v_sunburst_data := sunburst_data_355;
        v_country_sales := country_sales_373;
        v_top_country := top_country_374;
        v_max_sales := max_sales_375;
        v_total_sales := total_sales_376;
        v_csv := csv_400 |}.
End Script.

(* ================================================================== *)
(** * What the properties are stated with *)

(** [l1] is [l2] with some elements left out, the others in place. *)
Inductive Subsequence {A : Type} : list A -> list A -> Prop :=
| Subsequence_nil : Subsequence [] []
| Subsequence_skip x l1 l2 : Subsequence l1 l2 -> Subsequence l1 (x :: l2)
| Subsequence_keep x l1 l2 : Subsequence l1 l2 -> Subsequence (x :: l1) (x :: l2).

(** The row is of a selected country and of a selected product. *)
Definition selected (countries products : list string) (r : Row) : bool :=
  isin countries (Country r) && isin products (Product r).

(** The sum of [Amount] over the rows of [df] that satisfy [p], taken row
    by row over the whole frame. *)
Definition sum_Amount_where (p : Row -> bool) (df : DataFrame) : float :=
  fold_left (fun acc r =>
               if p r then (if isnan (Amount r) then acc else add acc (Amount r))
               else acc) df zero.

(** An amount that is a number ([nan] is a missing one): not infinite. *)
Definition not_inf (x : float) : bool :=
  match x with PInf | NInf => false | _ => true end.

(** The rational a float stands for in a sum that skips [nan]. *)
Definition qval (x : float) : Q :=
  match x with Fin q => q | _ => 0%Q end.

Definition qsum (l : list float) : Q :=
  fold_right (fun x acc => (qval x + acc)%Q) 0%Q l.


(** The laws of an order on keys. *)
Class KeyLaws (K : Type) `{Key K} : Prop := {
  cmp_eq : forall a b : K, cmp a b = Eq <-> a = b;
  cmp_antisym : forall a b : K, cmp b a = CompOpp (cmp a b);
  cmp_trans : forall a b c : K, cmp a b = Lt -> cmp b c = Lt -> cmp a c = Lt
}.

(** The order of the rows of a [nlargest] over group sums: the larger sum
    first, and of two equal sums the smaller key first. *)
Definition ranks_before {K : Type} `{Key K} (x y : K * float) : Prop :=
  ltb (snd y) (snd x) = true
  \/ (Float.eqb (snd x) (snd y) = true /\ cmp (fst x) (fst y) = Lt).

(** A row of a view, for the examples. *)
Definition sale (country product : string) (d : Timestamp) (amount : Q) (boxes : Z) : Row :=
  {| Sales_Person := "Jehu Rudeforth";
     Country := country;
     Product := product;
     Date := d;
     Amount := Fin amount;
     Boxes_Shipped := boxes;
     Month := month_name d;
     Year := year d;
     Revenue_per_Box := div (Fin amount) (of_int boxes) |}.

Definition raw_sale (country product date amount : string) (boxes : Z) : RawRow :=
  {| raw_Sales_Person := "Jehu Rudeforth";
     raw_Country := country;
     raw_Product := product;
     raw_Date := date;
     raw_Amount := str amount;
     raw_Boxes_Shipped := boxes |}.

Definition jan (d : Z) : Timestamp := {| year := 2022; month := 1; day := d |}.

(** The scenario of the specification. *)
Definition scenario_csv : list RawRow :=
  [ raw_sale "USA" "70% Dark Bites" "5-Jan-22" "$100.00" 10;
    raw_sale "USA" "70% Dark Bites" "6-Jan-22" "$50.00" 5 ].

Definition scenario_df : DataFrame :=
  [ sale "USA" "70% Dark Bites" (jan 5) 100 10;
    sale "USA" "70% Dark Bites" (jan 6) 50 5 ].





(** The strict order of keys, and of the rows of a series by their key. *)
Definition key_lt {K : Type} `{Key K} (a b : K) : Prop := cmp a b = Lt.

Definition by_key {K : Type} `{Key K} (x y : K * float) : Prop :=
  key_lt (fst x) (fst y).

(* ------------------------------------------------------------------ *)
(** ** Views and files for the examples *)

(** A file with one date that does not parse. *)
Definition one_bad_date_csv : list RawRow :=
  [ raw_sale "USA" "70% Dark Bites" "5-Jan-22" "$100.00" 10;
    raw_sale "India" "Milk Bars" "not-a-date" "$7" 1;
    raw_sale "USA" "70% Dark Bites" "6-Jan-22" "$50.00" 5 ].


(** A view whose only sale shipped no box, and one that also earned
    nothing. *)
Definition no_boxes_df : DataFrame := [ sale "India" "Milk Bars" (jan 4) 100 0 ].

Definition nothing_df : DataFrame := [ sale "India" "Milk Bars" (jan 4) 0 0 ].

(** Two sales of equal amount, the country that sorts last first. *)
Definition tie_df : DataFrame :=
  [ sale "USA" "Milk Bars" (jan 4) 10 1;
    sale "Canada" "Milk Bars" (jan 5) 10 1 ].

Definition twenty_combos : list (string * string) :=
  list_prod ["Australia"; "Canada"; "India"; "USA"]
            ["50% Dark Bites"; "70% Dark Bites"; "Almond Choco"; "Milk Bars"; "White Choc"].

(** Twenty sales, one per combination, of 1 to 20 dollars. *)
Definition twenty_combos_df : DataFrame :=
  map (fun x => sale (fst (snd x)) (snd (snd x)) (jan 4) (inject_Z (Z.of_nat (fst x))) 1)
      (combine (seq 1 20) twenty_combos).

(** A lookup that knows India and raises on any other name. *)
Definition search_India (country_name : string) : result (list pycountry_Country) :=
  if (country_name =? "India")%string
  then Ok [ {| name := "India"; alpha_2 := "IN"; alpha_3 := "IND" |} ]
  else Raise LookupError.

Definition atlantis_df : DataFrame :=
  [ sale "Atlantis" "Milk Bars" (jan 4) 100 10;
    sale "India" "Milk Bars" (jan 5) 50 5 ].

(* ================================================================== *)
(** * The sidebar and the orders of the charts *)

(** [Series.unique()]: the values, each once, in the order in which they
    first appear. *)
Fixpoint unique (l : list string) : list string :=
  match l with
  | [] => []
  | x :: l' => x :: filter (fun y => negb (y =? x)%string) (unique l')
  end.

(** [sorted(l)] on strings: ascending by code point. *)
Fixpoint insort (x : string) (l : list string) : list string :=
  match l with
  | [] => [x]
  | y :: l' => if String.leb x y then x :: l else y :: insort x l'
  end.

Definition sorted (l : list string) : list string := fold_right insort [] l.

(** The two multiselects (lines 60 to 69): what they offer and what is
    selected until the user changes it. *)
Definition country_options (df : DataFrame) : list string :=
  sorted (unique (map Country df)).

Definition country_default (df : DataFrame) : list string :=
  unique (map Country df).

Definition product_options (df : DataFrame) : list string :=
  sorted (unique (map Product df)).

Definition product_default (df : DataFrame) : list string :=
  unique (map Product df).

(** Lines 114 and 217. *)
Definition month_order : list string :=
  ["January"; "February"; "March"; "April"; "May"; "June";
   "July"; "August"; "September"; "October"; "November"; "December"].

Definition weekday_order : list string :=
  ["Monday"; "Tuesday"; "Wednesday"; "Thursday"; "Friday"; "Saturday"; "Sunday"].

(** A day of the calendar in the hundred years that [%y] names. *)
Definition valid_date (d : Timestamp) : bool :=
  (1969 <=? year d) && (year d <=? 2068)
  && (1 <=? month d) && (month d <=? 12)
  && (1 <=? day d) && (day d <=? days_in_month (year d) (month d)).

(** A date written in the format of line 45, ['%d-%b-%y'], the day and the
    year on two digits: [04-Jan-22]. *)
Definition strftime_d_b_y (d : Timestamp) : string :=
  string_of_list_ascii (two_digits (day d))
  ++ "-" ++ nth (Z.to_nat (month d - 1)) month_abbr ""
  ++ "-" ++ string_of_list_ascii (two_digits (year d)).

(** The integers from [lo], [n] of them. *)
Definition Zrange (lo : Z) (n : nat) : list Z :=
  map (fun i => lo + Z.of_nat i) (seq 0 n).

Definition Timestamp_eqb (d e : Timestamp) : bool :=
  (year d =? year e) && (month d =? month e) && (day d =? day e).

(** Every valid date of the hundred years, written and read back, is
    itself: the check, date by date. *)
Definition reads_back (d : Timestamp) : bool :=
  negb (valid_date d)
  || match to_datetime (strftime_d_b_y d) with
     | Some e => Timestamp_eqb d e
     | None => false
     end.

Definition all_dates_read_back : bool :=
  forallb (fun y =>
    forallb (fun m =>
      forallb (fun dd => reads_back {| year := y; month := m; day := dd |})
              (Zrange 1 31))
            (Zrange 1 12))
          (Zrange 1969 100).

(** What holds of a row that [load_data] built: its date is a day of the
    calendar, its month is one of [month_order], and its three derived
    columns are what lines 47 to 49 compute from the others. *)
Definition consistent (r : Row) : Prop :=
  valid_date (Date r) = true
  /\ In (Month r) month_order
  /\ Month r = month_name (Date r)
  /\ Year r = year (Date r)
  /\ Revenue_per_Box r = div (Amount r) (of_int (Boxes_Shipped r)).


(** The exact sum of integers. *)
Definition zsum (l : list Z) : Z := fold_right Z.add 0 l.

(* ================================================================== *)
(** * The pipeline on examples *)

Example float_of_string_ex1 : float_of_string "5320" = Some (Fin 5320).
Proof. reflexivity. Qed.
Example float_of_string_ex2 : float_of_string (str_replace "$1,234.50 ") = Some (Fin (2469 # 2)).
Proof. reflexivity. Qed.
Example float_of_string_ex3 : float_of_string "1_000.5e-1" = Some (Fin (2001 # 20)).
Proof. reflexivity. Qed.
Example float_of_string_ex4 : float_of_string "-Infinity" = Some NInf.
Proof. reflexivity. Qed.
Example float_of_string_ex5 : float_of_string "12abc" = None.
Proof. reflexivity. Qed.
Example float_of_string_ex6 : float_of_string "." = None.
Proof. reflexivity. Qed.
Example float_of_string_ex7 : float_of_string "1__0" = None.
Proof. reflexivity. Qed.
Example float_of_string_ex8 : float_of_string "" = None.
Proof. reflexivity. Qed.
Example to_datetime_ex1 :
  to_datetime "04-Jan-22" = Some {| year := 2022; month := 1; day := 4 |}.
Proof. reflexivity. Qed.
Example to_datetime_ex2 :
  to_datetime "5-jan-22" = Some {| year := 2022; month := 1; day := 5 |}.
Proof. reflexivity. Qed.
Example to_datetime_ex3 :
  to_datetime "29-FEB-00" = Some {| year := 2000; month := 2; day := 29 |}.
Proof. reflexivity. Qed.
Example to_datetime_ex4 : to_datetime "29-Feb-22" = None.
Proof. reflexivity. Qed.
Example to_datetime_ex5 : to_datetime "not-a-date" = None.
Proof. reflexivity. Qed.
Example to_datetime_ex6 : to_datetime "2022-01-04" = None.
Proof. reflexivity. Qed.
Example to_datetime_ex7 :
  to_datetime "31-Dec-69" = Some {| year := 1969; month := 12; day := 31 |}.
Proof. reflexivity. Qed.
Example to_datetime_ex8 : to_datetime "04-Jan-2022" = None.
Proof. reflexivity. Qed.
Example day_name_ex : day_name {| year := 2022; month := 1; day := 4 |} = "Tuesday".
Proof. reflexivity. Qed.
Example strftime_ex : strftime {| year := 2022; month := 1; day := 4 |} = "Jan 04, 2022".
Proof. reflexivity. Qed.
Example isoformat_ex : isoformat {| year := 2022; month := 1; day := 4 |} = "2022-01-04".
Proof. reflexivity. Qed.
Example scenario_load : load_data scenario_csv = Ok scenario_df.
Proof. reflexivity. Qed.
Example scenario_monthly : monthly_sales scenario_df = [(2022, "January", Fin 150)].
Proof. reflexivity. Qed.
Example scenario_top_products : top_products scenario_df = [("70% Dark Bites", Fin 150)].
Proof. reflexivity. Qed.
Example scenario_avg_revenue : avg_revenue scenario_df = Fin 10.
Proof. reflexivity. Qed.
Example scenario_filter_all :
  filtered_df scenario_df ["USA"] ["70% Dark Bites"] = scenario_df.
Proof. reflexivity. Qed.
Example scenario_filter_none : filtered_df scenario_df ["India"] ["70% Dark Bites"] = [].
Proof. reflexivity. Qed.

(* ================================================================== *)
(** * Results and traversals *)





(* ================================================================== *)
(** * The loader *)










Example one_bad_date_loads : load_data one_bad_date_csv = Ok scenario_df.
Proof. reflexivity. Qed.



(* ================================================================== *)
(** * The filter *)

Lemma mask_and_map {A : Type} (p q : A -> bool) (l : list A) :
  mask_and (map p l) (map q l) = map (fun a => p a && q a) l.
Proof. induction l as [|a l IH]; simpl; [reflexivity|]. rewrite IH. reflexivity. Qed.

Lemma boolean_index_map {A : Type} (p : A -> bool) (l : list A) :
  boolean_index l (map p l) = filter p l.
Proof.
  induction l as [|a l IH]; simpl; [reflexivity|]. rewrite IH. reflexivity.
Qed.

Lemma filtered_df_filter (df : DataFrame) (countries products : list string) :
  filtered_df df countries products = filter (selected countries products) df.
Proof. unfold filtered_df. rewrite mask_and_map. apply boolean_index_map. Qed.

Lemma filtered_df_no_countries (df : DataFrame) (products : list string) :
  filtered_df df [] products = [].
Proof.
  rewrite filtered_df_filter. induction df as [|r df IH]; simpl; [reflexivity|exact IH].
Qed.

Lemma Subsequence_filter {A : Type} (p : A -> bool) (l : list A) :
  Subsequence (filter p l) l.
Proof.
  induction l as [|a l IH]; simpl; [constructor|].
  destruct (p a); constructor; exact IH.
Qed.

Lemma isin_In (values : list string) (x : string) :
  isin values x = true <-> In x values.
Proof.
  unfold isin. rewrite existsb_exists. split.
  - intros (y & Hy & E). apply String.eqb_eq in E. subst. exact Hy.
  - intros H. exists x. split; [exact H|apply String.eqb_refl].
Qed.

Lemma sum_filter_acc (p : Row -> bool) (df : DataFrame) (acc : float) :
  fold_left (fun acc x => if isnan x then acc else add acc x)
            (map Amount (filter p df)) acc
  = fold_left (fun acc r =>
                 if p r then (if isnan (Amount r) then acc else add acc (Amount r))
                 else acc) df acc.
Proof.
  revert acc. induction df as [|r df IH]; intros acc; simpl; [reflexivity|].
  destruct (p r); simpl; apply IH.
Qed.

(** C1: the filter returns exactly the rows of the table whose country is
    selected and whose product is selected, in the order of the table; an
    empty selection of either kind leaves no row; and the total of the
    filtered view is the sum of [Amount] over the rows of the table that
    satisfy both memberships. *)
Theorem filtered_df_selects (df : DataFrame) (countries products : list string) :
  filtered_df df countries products = filter (selected countries products) df
  /\ Subsequence (filtered_df df countries products) df
  /\ (forall r, In r (filtered_df df countries products)
                <-> In r df /\ In (Country r) countries /\ In (Product r) products)
  /\ filtered_df df [] products = []
  /\ filtered_df df countries [] = []
  /\ total_sales (filtered_df df countries products)
     = sum_Amount_where (selected countries products) df.
Proof.
  rewrite !filtered_df_filter. split; [reflexivity|].
  split; [apply Subsequence_filter|]. split; [|split; [|split]].
  - intros r. rewrite filter_In. unfold selected.
    rewrite andb_true_iff, !isin_In. tauto.
  - induction df as [|r df IH]; simpl; [reflexivity|exact IH].
  - induction df as [|r df IH]; simpl; [reflexivity|].
    unfold selected at 1. simpl. rewrite andb_false_r. exact IH.
  - unfold total_sales, sum, sum_Amount_where. apply sum_filter_acc.
Qed.

(* ================================================================== *)
(** * The empty view *)

Lemma aggregates_of_empty_view :
  monthly_sales [] = [] /\ daily_sales [] = [] /\ top_combos [] = []
  /\ country_sales [] = [] /\ top_products [] = [] /\ weekday_sales [] = []
  /\ top_days [] = [] /\ growth_df [] = [] /\ ratio_df [] = []
  /\ product_sales [] = [] /\ sunburst_data [] = [] /\ to_csv [] = []
  /\ total_sales [] = Fin 0 /\ total_boxes [] = 0 /\ avg_revenue [] = Fin 0.
Proof. repeat split. Qed.

(** C2: on the view with no rows, which the filter returns as soon as no
    country is selected, the "Country Performance" summary raises
    [ValueError] at [idxmax] and the run of the script stops there, while
    the largest sum of the same summary is [nan] and its total is [0]. *)
Theorem top_country_of_empty_view_raises
    (search_fuzzy : string -> result (list pycountry_Country))
    (df : DataFrame) (products : list string) :
  filtered_df df [] products = []
  /\ top_country (filtered_df df [] products) = Raise ValueError
  /\ country_performance (filtered_df df [] products) = Raise ValueError
  /\ script search_fuzzy (filtered_df df [] products) = Raise ValueError
  /\ max_sales (filtered_df df [] products) = NaN
  /\ country_total_sales (filtered_df df [] products) = Fin 0.
Proof.
  assert (filtered_df df [] products = []) as ->.
  { apply filtered_df_no_countries. }
  repeat split.
Qed.

(* ================================================================== *)
(** * Ratios *)

(** C3: for a product whose boxes add up to [0], [ratio_df] and
    [growth_df] divide all the same and hold [inf] (or [nan] when the
    amounts add up to [0] too), where [avg_revenue] tests its divisor and
    gives [0]. *)
Theorem ratio_of_no_boxes :
  ratio_df no_boxes_df = [("Milk Bars", Fin 100, 0, PInf)]
  /\ growth_df no_boxes_df = [(2022, "Milk Bars", Fin 100, 0, PInf)]
  /\ ratio_df nothing_df = [("Milk Bars", Fin 0, 0, NaN)]
  /\ growth_df nothing_df = [(2022, "Milk Bars", Fin 0, 0, NaN)]
  /\ avg_revenue no_boxes_df = Fin 0.
Proof. repeat split. Qed.

(** A ratio over no boxes is never a finite number. *)
Lemma div_by_zero_not_finite (a : float) : isfinite (div a (of_int 0)) = false.
Proof.
  destruct a as [q| | |]; try reflexivity.
  simpl. unfold sign_inf. destruct (Qcompare q 0); reflexivity.
Qed.

(** Whatever the view, a row of [ratio_df] or of [growth_df] whose boxes
    add up to [0] holds a ratio that is no finite number. *)
Lemma with_ratio_zero_boxes {K : Type} (x : K * float * Z) (k : K) (a r : float) :
  with_ratio x = (k, a, 0, r) -> isfinite r = false.
Proof.
  destruct x as [[k' a'] b']. simpl. intros E. injection E as _ _ -> <-.
  apply div_by_zero_not_finite.
Qed.

Lemma ratio_df_zero_boxes (view : DataFrame) (product : string) (a r : float) :
  In (product, a, 0, r) (ratio_df view) -> isfinite r = false.
Proof.
  unfold ratio_df. rewrite in_map_iff. intros (x & E & _).
  exact (with_ratio_zero_boxes x product a r E).
Qed.

Lemma growth_df_zero_boxes (view : DataFrame) (k : Z * string) (a r : float) :
  In (k, a, 0, r) (growth_df view) -> isfinite r = false.
Proof.
  unfold growth_df. rewrite in_map_iff. intros (x & E & _).
  exact (with_ratio_zero_boxes x k a r E).
Qed.

(* ================================================================== *)
(** * The export read back *)

Lemma digit_char_cases (n : Z) :
  In (digit_char n)
     ["0"; "1"; "2"; "3"; "4"; "5"; "6"; "7"; "8"; "9"]%char.
Proof.
  unfold digit_char.
  pose proof (Z.mod_pos_bound n 10 ltac:(lia)) as B.
  assert (n mod 10 = 0 \/ n mod 10 = 1 \/ n mod 10 = 2 \/ n mod 10 = 3
          \/ n mod 10 = 4 \/ n mod 10 = 5 \/ n mod 10 = 6 \/ n mod 10 = 7
          \/ n mod 10 = 8 \/ n mod 10 = 9) as C by lia.
  repeat (destruct C as [C|C]; [rewrite C; simpl; tauto|]).
  rewrite C; simpl; tauto.
Qed.

(** A text that starts with three digits matches no alternative of [%d]
    followed by a hyphen. *)
Lemma strptime_three_digits (c1 c2 c3 : ascii) (rest : list ascii) :
  In c1 ["0"; "1"; "2"; "3"; "4"; "5"; "6"; "7"; "8"; "9"]%char ->
  In c2 ["0"; "1"; "2"; "3"; "4"; "5"; "6"; "7"; "8"; "9"]%char ->
  In c3 ["0"; "1"; "2"; "3"; "4"; "5"; "6"; "7"; "8"; "9"]%char ->
  strptime directive_d (c1 :: c2 :: c3 :: rest) = None.
Proof.
  intros H1 H2 H3. simpl in H1, H2, H3.
  repeat (destruct H1 as [<-|H1]); try contradiction;
    repeat (destruct H2 as [<-|H2]); try contradiction;
    repeat (destruct H3 as [<-|H3]); try contradiction; reflexivity.
Qed.

Lemma list_ascii_of_string_of_list (l : list ascii) :
  list_ascii_of_string (string_of_list_ascii l) = l.
Proof. induction l as [|c l IH]; simpl; [reflexivity|]. rewrite IH. reflexivity. Qed.

Lemma to_datetime_isoformat (d : Timestamp) : to_datetime (isoformat d) = None.
Proof.
  unfold to_datetime, isoformat. rewrite list_ascii_of_string_of_list.
  unfold four_digits. cbn [app].
  rewrite strptime_three_digits; [reflexivity| | |]; apply digit_char_cases.
Qed.

Lemma load_data_read_csv_cons (r : Row) (view : DataFrame) :
  load_data (read_csv (to_csv (r :: view))) = Raise AttributeError.
Proof.
  unfold load_data, str_accessor.
  assert (is_object_dtype (map raw_Amount (read_csv (to_csv (r :: view)))) = false) as ->;
    [|reflexivity].
  unfold read_csv, to_csv. rewrite !map_map. simpl.
  induction view as [|r' view IH]; simpl; [reflexivity|exact IH].
Qed.

(** C8, the claim as stated fails: the export of the view of the scenario
    does not load back to that view, the loader raises on it. *)
Lemma export_of_scenario_does_not_load_back :
  load_data (read_csv (to_csv scenario_df)) = Raise AttributeError
  /\ map raw_Date (read_csv (to_csv scenario_df)) = ["2022-01-05"; "2022-01-06"]
  /\ map raw_Amount (read_csv (to_csv scenario_df)) = [num (Fin 100); num (Fin 50)].
Proof. repeat split. Qed.

(** C8, as the code has it: the export does not load back. [to_csv] writes
    the amounts as bare numbers and the dates as [YYYY-MM-DD]; read back,
    the amount column of a view with at least one row is numeric and
    [load_data] raises [AttributeError] on it, and no exported date matches
    the loader's [%d-%b-%y]; only the view with no rows loads back, as the
    table with no rows. *)
Theorem export_does_not_load_back :
  (forall (r : Row) (view : DataFrame),
      load_data (read_csv (to_csv (r :: view))) = Raise AttributeError)
  /\ (forall r : Row, to_datetime (csv_Date (csv_line r)) = None)
  /\ load_data (read_csv (to_csv [])) = Ok [].
Proof.
  split; [exact load_data_read_csv_cons|]. split; [|reflexivity].
  intros r. apply to_datetime_isoformat.
Qed.

(* ================================================================== *)
(** * Orders on keys *)

#[export] Instance KeyLaws_Z : KeyLaws Z.
Proof.
  split; simpl.
  - apply Z.compare_eq_iff.
  - intros a b. apply Z.compare_antisym.
  - intros a b c. rewrite !Z.compare_lt_iff. lia.
Qed.

Lemma ascii_compare_refl (a : ascii) : Ascii.compare a a = Eq.
Proof. unfold Ascii.compare. apply N.compare_refl. Qed.

Lemma ascii_compare_trans (a b c : ascii) :
  Ascii.compare a b = Lt -> Ascii.compare b c = Lt -> Ascii.compare a c = Lt.
Proof. unfold Ascii.compare. rewrite !N.compare_lt_iff. apply N.lt_trans. Qed.

Lemma string_compare_refl (s : string) : String.compare s s = Eq.
Proof.
  induction s as [|a s IH]; simpl; [reflexivity|].
  rewrite ascii_compare_refl. exact IH.
Qed.

Lemma string_compare_trans (s1 s2 s3 : string) :
  String.compare s1 s2 = Lt -> String.compare s2 s3 = Lt -> String.compare s1 s3 = Lt.
Proof.
  revert s2 s3. induction s1 as [|a s1 IH]; intros [|b s2] [|c s3]; simpl;
    try discriminate; try reflexivity.
  destruct (Ascii.compare a b) eqn:Eab; try discriminate;
    destruct (Ascii.compare b c) eqn:Ebc; try discriminate; intros H12 H23.
  - apply Ascii.compare_eq_iff in Eab, Ebc. subst.
    rewrite ascii_compare_refl. eapply IH; eassumption.
  - apply Ascii.compare_eq_iff in Eab. subst. rewrite Ebc. reflexivity.
  - apply Ascii.compare_eq_iff in Ebc. subst. rewrite Eab. reflexivity.
  - rewrite (ascii_compare_trans a b c Eab Ebc). reflexivity.
Qed.

#[export] Instance KeyLaws_string : KeyLaws string.
Proof.
  split; simpl.
  - intros a b. split.
    + apply String.compare_eq_iff.
    + intros <-. apply string_compare_refl.
  - intros a b. apply String.compare_antisym.
  - apply string_compare_trans.
Qed.

#[export] Instance KeyLaws_pair {A B : Type} `{KeyLaws A} `{KeyLaws B} : KeyLaws (A * B).
Proof.
  split; simpl.
  - intros [a1 b1] [a2 b2]; simpl. split.
    + destruct (cmp a1 a2) eqn:Ea; try discriminate.
      intros Eb. apply cmp_eq in Ea, Eb. congruence.
    + intros E. injection E as <- <-.
      rewrite (proj2 (cmp_eq a1 a1) eq_refl). apply cmp_eq. reflexivity.
  - intros [a1 b1] [a2 b2]; simpl.
    rewrite (cmp_antisym a1 a2). destruct (cmp a1 a2); simpl; try reflexivity.
    apply cmp_antisym.
  - intros [a1 b1] [a2 b2] [a3 b3]; simpl.
    destruct (cmp a1 a2) eqn:E12; try discriminate;
      destruct (cmp a2 a3) eqn:E23; try discriminate; intros H12 H23.
    + apply cmp_eq in E12, E23. subst.
      rewrite (proj2 (cmp_eq a3 a3) eq_refl). eapply cmp_trans; eassumption.
    + apply cmp_eq in E12. subst. rewrite E23. reflexivity.
    + apply cmp_eq in E23. subst. rewrite E12. reflexivity.
    + rewrite (cmp_trans a1 a2 a3 E12 E23). reflexivity.
Qed.

#[export] Instance KeyLaws_Timestamp : KeyLaws Timestamp.
Proof.
  split.
  - intros [y1 m1 d1] [y2 m2 d2]. unfold cmp, Key_Timestamp. cbn [year month day].
    rewrite (cmp_eq (y1, (m1, d1)) (y2, (m2, d2))). split; intros E; congruence.
  - intros d e. unfold cmp, Key_Timestamp. apply cmp_antisym.
  - intros d e f. unfold cmp, Key_Timestamp. apply cmp_trans.
Qed.

Lemma key_eqb_eq {K : Type} `{KeyLaws K} (a b : K) : key_eqb a b = true <-> a = b.
Proof.
  unfold key_eqb. rewrite <- cmp_eq. destruct (cmp a b); split; congruence.
Qed.


Lemma cmp_irrefl {K : Type} `{KeyLaws K} (a : K) : cmp a a <> Lt.
Proof. rewrite (proj2 (cmp_eq a a) eq_refl). discriminate. Qed.

(* ================================================================== *)
(** * The groups of a group-by *)

Section GroupByFacts.
Context {K : Type} `{KeyLaws K} {R : Type}.
Variable by_ : R -> K.

Lemma insert_key_In (k x : K) (ks : list K) :
  In x (insert_key k ks) <-> x = k \/ In x ks.
Proof.
  induction ks as [|k' ks IH]; simpl.
  - intuition.
  - destruct (cmp k k') eqn:E; simpl.
    + apply cmp_eq in E. subst. intuition.
    + intuition.
    + rewrite IH. intuition.
Qed.

Lemma insert_key_sorted (k : K) (ks : list K) :
  StronglySorted key_lt ks -> StronglySorted key_lt (insert_key k ks).
Proof.
  induction 1 as [|k' ks S IH F]; simpl.
  - repeat constructor.
  - destruct (cmp k k') eqn:E.
    + constructor; assumption.
    + constructor; [constructor; assumption|].
      constructor; [exact E|].
      eapply Forall_impl; [|exact F]. intros x Hx. exact (cmp_trans _ _ _ E Hx).
    + constructor; [exact IH|].
      apply Forall_forall. intros x Hx. apply insert_key_In in Hx.
      destruct Hx as [->|Hx].
      * unfold key_lt. rewrite (cmp_antisym k k'), E. reflexivity.
      * rewrite Forall_forall in F. apply F. exact Hx.
Qed.

Lemma group_keys_sorted (rows : list R) : StronglySorted key_lt (group_keys by_ rows).
Proof.
  induction rows as [|r rows IH]; simpl; [constructor|].
  apply insert_key_sorted. exact IH.
Qed.

Lemma group_keys_In (k : K) (rows : list R) :
  In k (group_keys by_ rows) <-> exists r, In r rows /\ by_ r = k.
Proof.
  induction rows as [|r rows IH]; simpl.
  - split; [contradiction|]. intros (r & [] & _).
  - rewrite insert_key_In, IH. split.
    + intros [->|(r' & Hin & E)]; [exists r; auto|exists r'; auto].
    + intros (r' & [<-|Hin] & E); [left; congruence|right; exists r'; auto].
Qed.

Lemma sorted_NoDup (ks : list K) : StronglySorted key_lt ks -> NoDup ks.
Proof.
  induction 1 as [|k ks S IH F]; constructor; [|exact IH].
  intros Hin. rewrite Forall_forall in F. apply (cmp_irrefl k). apply F. exact Hin.
Qed.

Lemma group_keys_NoDup (rows : list R) : NoDup (group_keys by_ rows).
Proof. apply sorted_NoDup, group_keys_sorted. Qed.

Lemma groupby_keys (rows : list R) : map fst (groupby by_ rows) = group_keys by_ rows.
Proof. unfold groupby. rewrite map_map. simpl. apply map_id. Qed.
End GroupByFacts.

(* ================================================================== *)
(** * Sums *)

#[local] Arguments Qred : simpl never.
#[local] Arguments Qplus : simpl never.
Local Open Scope Q_scope.

Lemma sum_acc (l : list float) (a : Q) :
  Forall (fun x => not_inf x = true) l ->
  fold_left (fun acc x => if isnan x then acc else add acc x) l (Fin (Qred a))
  = Fin (Qred (a + qsum l)).
Proof.
  intros F. revert a. induction F as [|x l Hx _ IH]; intros a; simpl.
  - f_equal. apply Qred_complete. ring.
  - destruct x as [q| | |]; simpl in *; try discriminate.
    + rewrite IH. f_equal. apply Qred_complete. rewrite Qred_correct. ring.
    + rewrite IH. f_equal. apply Qred_complete. ring.
Qed.

(** Without an infinite cell, [sum] is the exact sum of the cells that are
    numbers. *)
Lemma sum_qsum (l : list float) :
  Forall (fun x => not_inf x = true) l -> sum l = Fin (Qred (qsum l)).
Proof.
  intros F. unfold sum, zero. change (Fin 0) with (Fin (Qred 0)).
  rewrite (sum_acc l 0 F). f_equal. apply Qred_complete. ring.
Qed.






Section Partition.
Context {K : Type} `{KeyLaws K}.
Variable by_ : Row -> K.



Lemma Forall_not_inf_filter (p : Row -> bool) (rows : DataFrame) :
  Forall (fun r => not_inf (Amount r) = true) rows ->
  Forall (fun x => not_inf x = true) (map Amount (filter p rows)).
Proof.
  intros F. apply Forall_map. apply Forall_forall. intros r Hr.
  apply filter_In in Hr. rewrite Forall_forall in F. apply F, Hr.
Qed.

End Partition.

Local Close Scope Q_scope.



(** Why the amounts must not be infinite: [inf] and [-inf] in one country
    add up to [nan] there, which the sum over the countries skips and the
    sum over the rows does not. *)
Example infinite_amounts :
  let df := [ {| Sales_Person := ""; Country := "India"; Product := "Milk Bars";
                 Date := jan 4; Amount := PInf; Boxes_Shipped := 1;
                 Month := "January"; Year := 2022; Revenue_per_Box := PInf |};
              {| Sales_Person := ""; Country := "India"; Product := "Milk Bars";
                 Date := jan 4; Amount := NInf; Boxes_Shipped := 1;
                 Month := "January"; Year := 2022; Revenue_per_Box := NInf |};
              sale "USA" "Milk Bars" (jan 4) 1 1 ] in
  country_total_sales df = Fin 1 /\ total_sales df = NaN.
Proof. split; reflexivity. Qed.

(* ================================================================== *)
(** * The order of floats *)

Lemma leb_total (x y : float) : leb x y = true \/ leb y x = true.
Proof.
  destruct x as [a| | |], y as [b| | |]; simpl; auto.
  rewrite !Qle_bool_iff. destruct (Qlt_le_dec a b) as [L|L]; [left|right]; auto.
  apply Qlt_le_weak. exact L.
Qed.

Lemma leb_trans (x y z : float) : leb x y = true -> leb y z = true -> leb x z = true.
Proof.
  destruct x as [a| | |], y as [b| | |], z as [c| | |]; simpl; auto; try discriminate.
  rewrite !Qle_bool_iff. apply Qle_trans.
Qed.

Lemma ltb_leb (x y : float) : ltb x y = true -> leb x y = true.
Proof.
  unfold ltb. intros L. destruct (leb_total x y) as [E|E]; [exact E|].
  rewrite E in L. discriminate.
Qed.

(* ================================================================== *)
(** * [nlargest] *)

Section Ranking.
Context {K : Type} `{KeyLaws K}.

Lemma ranks_before_leb (x y : K * float) : ranks_before x y -> leb (snd y) (snd x) = true.
Proof.
  intros [L|[E _]]; [apply ltb_leb; exact L|].
  unfold Float.eqb in E. apply andb_true_iff in E. apply E.
Qed.

(** A row that comes first by key and is not below [y] ranks before [y]. *)
Lemma leb_ranks_before (x y : K * float) :
  by_key x y -> leb (snd y) (snd x) = true -> ranks_before x y.
Proof.
  intros Hk L. unfold ranks_before, ltb, Float.eqb. rewrite L.
  destruct (leb (snd x) (snd y)); simpl; auto.
Qed.

Lemma insert_desc_Permutation (x : K * float) (l : list (K * float)) :
  Permutation (insert_desc x l) (x :: l).
Proof.
  induction l as [|y l IH]; simpl; [reflexivity|].
  destruct (leb (snd y) (snd x)); [reflexivity|].
  rewrite IH. apply perm_swap.
Qed.

Lemma sort_values_desc_Permutation (s : list (K * float)) :
  Permutation (sort_values_desc s) s.
Proof.
  induction s as [|x s IH]; simpl; [reflexivity|].
  rewrite insert_desc_Permutation, IH. reflexivity.
Qed.

Lemma insert_desc_sorted (x : K * float) (l : list (K * float)) :
  StronglySorted ranks_before l -> Forall (by_key x) l ->
  StronglySorted ranks_before (insert_desc x l).
Proof.
  induction 1 as [|y l S IH F]; intros Hk; simpl.
  - repeat constructor.
  - inversion Hk as [|? ? Hky Hkl]; subst.
    destruct (leb (snd y) (snd x)) eqn:L.
    + constructor; [constructor; assumption|].
      constructor; [apply leb_ranks_before; assumption|].
      rewrite Forall_forall in F, Hkl |- *. intros z Hz.
      apply leb_ranks_before; [apply Hkl; exact Hz|].
      eapply leb_trans; [|exact L]. apply ranks_before_leb, F, Hz.
    + constructor; [apply IH; exact Hkl|].
      apply Forall_forall. intros z Hz.
      apply (Permutation_in _ (insert_desc_Permutation x l)) in Hz.
      destruct Hz as [<-|Hz].
      * left. unfold ltb. rewrite L. reflexivity.
      * rewrite Forall_forall in F. apply F, Hz.
Qed.

(** On a series whose keys ascend, the descending sort orders the rows
    by sum and, among equal sums, by key. *)
Lemma sort_values_desc_sorted (s : list (K * float)) :
  StronglySorted by_key s -> StronglySorted ranks_before (sort_values_desc s).
Proof.
  induction 1 as [|x s S IH F]; simpl; [constructor|].
  apply insert_desc_sorted; [exact IH|].
  rewrite Forall_forall in F |- *. intros y Hy. apply F.
  apply (Permutation_in _ (sort_values_desc_Permutation s)). exact Hy.
Qed.

Lemma nlargest_rest (n : nat) (s : list (K * float)) :
  StronglySorted by_key s ->
  Permutation (nlargest n s ++ skipn n (sort_values_desc s)) s
  /\ StronglySorted ranks_before (nlargest n s ++ skipn n (sort_values_desc s)).
Proof.
  intros S. unfold nlargest. rewrite firstn_skipn. split.
  - apply sort_values_desc_Permutation.
  - apply sort_values_desc_sorted, S.
Qed.

Lemma nlargest_length (n : nat) (s : list (K * float)) :
  List.length (nlargest n s) = Nat.min n (List.length s).
Proof.
  unfold nlargest. rewrite length_firstn.
  rewrite (Permutation_length (sort_values_desc_Permutation s)). reflexivity.
Qed.

(** The group sums come with their keys ascending. *)
Lemma groupby_Amount_sum_by_key (by_ : Row -> K) (df : DataFrame) :
  StronglySorted by_key (groupby_Amount_sum by_ df).
Proof.
  unfold groupby_Amount_sum, groupby. rewrite map_map. simpl.
  pose proof (group_keys_sorted by_ df) as S.
  induction S as [|k ks S IH F]; simpl; constructor; [exact IH|].
  apply Forall_map. exact F.
Qed.

Lemma groupby_Amount_sum_In (by_ : Row -> K) (df : DataFrame) (k : K) (s : float) :
  In (k, s) (groupby_Amount_sum by_ df)
  <-> (exists r, In r df /\ by_ r = k)
      /\ s = sum (map Amount (filter (fun r => key_eqb (by_ r) k) df)).
Proof.
  unfold groupby_Amount_sum, groupby. rewrite map_map. simpl.
  rewrite in_map_iff. rewrite <- (group_keys_In by_). split.
  - intros (k' & E & Hin). injection E as -> <-. auto.
  - intros (Hin & ->). exists k. auto.
Qed.

Lemma groupby_Amount_sum_length (by_ : Row -> K) (df : DataFrame) :
  List.length (groupby_Amount_sum by_ df) = List.length (group_keys by_ df).
Proof. unfold groupby_Amount_sum, groupby. rewrite !length_map. reflexivity. Qed.
End Ranking.

(* ================================================================== *)
(** * The top country and product combinations *)

Lemma key_eqb_pair (c p c' p' : string) :
  key_eqb (c, p) (c', p') = ((c =? c')%string && (p =? p')%string)%bool.
Proof.
  apply eq_true_iff_eq. rewrite key_eqb_eq, andb_true_iff, !String.eqb_eq.
  split; [intros E; injection E; auto|intros [-> ->]; reflexivity].
Qed.

(** C6, the claim as stated fails: of two combinations with equal sums the
    one met first in the view, USA, comes second. *)
Lemma top_combos_tie_not_first_encountered :
  map (fun r => (Country r, Product r)) tie_df
  = [("USA", "Milk Bars"); ("Canada", "Milk Bars")]
  /\ top_combos tie_df = [("Canada", "Milk Bars", Fin 10); ("USA", "Milk Bars", Fin 10)].
Proof. split; reflexivity. Qed.

(** C6, as the code has it: [top_combos] holds, for the combinations of
    country and product that occur in the view, the sum of their amounts;
    it is the first 15 rows (all of them when there are fewer) of the table
    of all these sums put in descending order of the sum, two equal sums in
    ascending order of their key (country, then product); so a view with at
    least 15 distinct combinations gives exactly 15 rows. *)
Theorem top_combos_ranked (filtered_df : DataFrame) :
  (forall c p s,
      In (c, p, s) (sunburst_data filtered_df)
      <-> (exists r, In r filtered_df /\ Country r = c /\ Product r = p)
          /\ s = sum (map Amount
                       (filter (fun r => (Country r =? c)%string && (Product r =? p)%string)
                               filtered_df)))
  /\ (exists rest,
         Permutation (top_combos filtered_df ++ rest) (sunburst_data filtered_df)
         /\ StronglySorted ranks_before (top_combos filtered_df ++ rest))
  /\ List.length (top_combos filtered_df)
     = Nat.min 15 (List.length (sunburst_data filtered_df))
  /\ (forall combos : list (string * string),
         NoDup combos ->
         (forall k, In k combos ->
                    exists r, In r filtered_df /\ (Country r, Product r) = k) ->
         (15 <= List.length combos)%nat ->
         List.length (top_combos filtered_df) = 15%nat).
Proof.
  unfold top_combos, sunburst_data.
  set (by_ := fun r : Row => (Country r, Product r)).
  split; [|split; [|split]].
  - intros c p s. rewrite (groupby_Amount_sum_In by_ filtered_df (c, p) s).
    rewrite (filter_ext (fun r => key_eqb (by_ r) (c, p))
                        (fun r => (Country r =? c)%string && (Product r =? p)%string)%bool)
      by (intros r; apply key_eqb_pair).
    split; intros [(r & Hin & E) Hs]; (split; [|exact Hs]); exists r.
    + injection E as E1 E2. auto.
    + destruct E as [E1 E2]. unfold by_. rewrite E1, E2. auto.
  - exists (skipn 15 (sort_values_desc (groupby_Amount_sum by_ filtered_df))).
    apply nlargest_rest, groupby_Amount_sum_by_key.
  - apply nlargest_length.
  - intros combos ND Hocc Hlen. rewrite nlargest_length, groupby_Amount_sum_length.
    assert (List.length combos <= List.length (group_keys by_ filtered_df))%nat.
    { apply NoDup_incl_length; [exact ND|]. intros k Hk.
      apply group_keys_In. apply Hocc, Hk. }
    lia.
Qed.

Lemma top_combos_ranked_witness : List.length (top_combos twenty_combos_df) = 15%nat.
Proof.
  apply (proj2 (proj2 (proj2 (top_combos_ranked twenty_combos_df))) twenty_combos).
  - unfold twenty_combos. simpl.
    repeat (constructor; [simpl; intuition discriminate|]). constructor.
  - assert (forallb (fun k => existsb (fun r => key_eqb (Country r, Product r) k)
                                       twenty_combos_df) twenty_combos = true) as C
      by (vm_compute; reflexivity).
    intros k Hk. rewrite forallb_forall in C. apply C in Hk.
    apply existsb_exists in Hk. destruct Hk as (r & Hin & E).
    exists r. split; [exact Hin|]. apply key_eqb_eq. exact E.
  - simpl. lia.
Defined.

Example top_combos_twenty_head :
  firstn 2 (top_combos twenty_combos_df)
  = [("USA", "White Choc", Fin 20); ("USA", "Milk Bars", Fin 19)].
Proof. reflexivity. Qed.

(* ================================================================== *)
(** * The choropleth *)

(** C7, the claim as stated fails: a country without a code is not taken
    out of the choropleth's table, it is there with its sum and no code. *)
Lemma unresolved_country_in_choropleth :
  country_to_iso search_India "Atlantis" = None
  /\ country_sales_ISO search_India atlantis_df
     = [("Atlantis", Fin 100, None); ("India", Fin 50, Some "IND")].
Proof. split; reflexivity. Qed.

(** C7, as the code has it: [country_to_iso] never raises; it returns the
    three-letter code ([alpha_3]) of the first record the search finds, and
    no code when the search raises or finds nothing. The choropleth's table
    is the per-country sums with that code beside each: every country of
    the view is in it with its whole sum, with or without a code, and no
    other table of the script looks at the code. *)
Theorem country_to_iso_total
    (search_fuzzy : string -> result (list pycountry_Country)) :
  (forall country_name,
      (country_to_iso search_fuzzy country_name = None
       /\ (search_fuzzy country_name = Ok [] \/ exists e, search_fuzzy country_name = Raise e))
      \/ (exists c l, search_fuzzy country_name = Ok (c :: l)
                      /\ country_to_iso search_fuzzy country_name = Some (alpha_3 c)))
  /\ (forall filtered_df,
         map fst (country_sales_ISO search_fuzzy filtered_df) = country_sales filtered_df)
  /\ (forall filtered_df r,
         In r filtered_df ->
         In (Country r,
             sum (map Amount (filter (fun r' => (Country r' =? Country r)%string) filtered_df)),
             country_to_iso search_fuzzy (Country r))
            (country_sales_ISO search_fuzzy filtered_df))
  /\ ((forall country_name l,
          search_fuzzy country_name = Ok l ->
          Forall (fun c => String.length (alpha_3 c) = 3%nat) l) ->
      forall country_name iso,
        country_to_iso search_fuzzy country_name = Some iso -> String.length iso = 3%nat).
Proof.
  split; [|split; [|split]]; cycle 3.
  - intros H3 country_name iso. unfold country_to_iso.
    destruct (search_fuzzy country_name) as [[|c l]|e] eqn:E; simpl; try discriminate.
    intros I. injection I as <-. apply H3 in E. inversion E. assumption.
  - intros country_name. unfold country_to_iso.
    destruct (search_fuzzy country_name) as [[|c l]|e]; simpl.
    + left. auto.
    + right. exists c, l. auto.
    + left. split; [reflexivity|]. right. exists e. reflexivity.
  - intros filtered_df. unfold country_sales_ISO. rewrite map_map. simpl. apply map_id.
  - intros filtered_df r Hin. unfold country_sales_ISO.
    apply in_map_iff.
    exists (Country r,
            sum (map Amount (filter (fun r' => (Country r' =? Country r)%string) filtered_df))).
    split; [reflexivity|].
    unfold country_sales. apply groupby_Amount_sum_In. split; [exists r; auto|].
    f_equal. f_equal. apply filter_ext. intros r'.
    apply eq_true_iff_eq. rewrite key_eqb_eq, String.eqb_eq. reflexivity.
Qed.

Lemma country_to_iso_total_witness :
  String.length "IND" = 3%nat
  /\ In ("India", Fin 50, Some "IND") (country_sales_ISO search_India atlantis_df).
Proof.
  pose proof (country_to_iso_total search_India) as (_ & _ & Hin & H3).
  split.
  - apply (H3 ltac:(intros n l; unfold search_India; destruct (n =? "India")%string;
                    intros E; [injection E as <-; repeat constructor|discriminate])
              "India" "IND").
    reflexivity.
  - apply (Hin atlantis_df (sale "India" "Milk Bars" (jan 5) 50 5)).
    simpl. tauto.
Defined.

(* ================================================================== *)
(** * Running the script twice *)

(** C9: a run of the script that ends leaves the view as it found it, a
    second run on that view binds every name to the same table, rows in the
    same order, and each table is the one its aggregate computes from the
    view alone: the monthly totals of lines 113 and 309 are one table, and
    so are the top products of lines 196 and 341. *)
Theorem script_twice
    (search_fuzzy : string -> result (list pycountry_Country))
    (filtered_df : DataFrame) (vars : Variables) :
  script search_fuzzy filtered_df = Ok vars ->
  v_filtered_df vars = filtered_df
  /\ script search_fuzzy (v_filtered_df vars) = Ok vars
  /\ v_monthly_sales vars = monthly_sales filtered_df
  /\ v_top_products vars = top_products filtered_df
  /\ v_product_sales vars = v_top_products vars
  /\ v_daily_sales vars = daily_sales filtered_df
  /\ v_top_combos vars = top_combos filtered_df
  /\ v_country_sales vars = country_sales filtered_df
  /\ v_growth_df vars = growth_df filtered_df
  /\ v_ratio_df vars = ratio_df filtered_df.
Proof.
  unfold script.
  destruct (idxmax (country_sales filtered_df)) as [tc|e] eqn:E; simpl; [|discriminate].
  intros V. injection V as <-. simpl. rewrite E. simpl. repeat split.
Qed.

Lemma script_twice_witness :
  exists vars,
    script search_India scenario_df = Ok vars
    /\ v_filtered_df vars = scenario_df
    /\ script search_India (v_filtered_df vars) = Ok vars
    /\ v_monthly_sales vars = [(2022, "January", Fin 150)]
    /\ v_top_country vars = Some "USA".
Proof.
  eexists. split; [reflexivity|].
  pose proof (script_twice search_India scenario_df _ eq_refl) as (H1 & H2 & H3 & _).
  split; [exact H1|]. split; [exact H2|]. split; reflexivity.
Defined.

(* ================================================================== *)
(** * The sidebar *)

Lemma unique_In (x : string) (l : list string) : In x (unique l) <-> In x l.
Proof.
  induction l as [|y l IH]; simpl; [tauto|].
  rewrite filter_In, IH, negb_true_iff, String.eqb_neq.
  destruct (String.eqb_spec x y) as [->|N]; [tauto|].
  split; [tauto|]. intros [E|Hin]; [congruence|auto].
Qed.

Lemma NoDup_filter {A : Type} (p : A -> bool) (l : list A) : NoDup l -> NoDup (filter p l).
Proof.
  induction 1 as [|x l Hx ND IH]; simpl; [constructor|].
  destruct (p x); [constructor|]; auto.
  rewrite filter_In. tauto.
Qed.

Lemma unique_NoDup (l : list string) : NoDup (unique l).
Proof.
  induction l as [|y l IH]; simpl; constructor.
  - rewrite filter_In, negb_true_iff, String.eqb_neq. tauto.
  - apply NoDup_filter, IH.
Qed.

Lemma insort_Permutation (x : string) (l : list string) : Permutation (insort x l) (x :: l).
Proof.
  induction l as [|y l IH]; simpl; [reflexivity|].
  destruct (String.leb x y); [reflexivity|]. rewrite IH. apply perm_swap.
Qed.

Lemma sorted_Permutation (l : list string) : Permutation (sorted l) l.
Proof.
  induction l as [|x l IH]; simpl; [reflexivity|].
  rewrite insort_Permutation, IH. reflexivity.
Qed.

Lemma sorted_In (x : string) (l : list string) : In x (sorted l) <-> In x l.
Proof.
  split; apply Permutation_in; [|symmetry]; apply sorted_Permutation.
Qed.

Lemma insort_sorted (x : string) (l : list string) :
  StronglySorted key_lt l -> ~ In x l -> StronglySorted key_lt (insort x l).
Proof.
  induction 1 as [|y l S IH F]; intros Hx; simpl.
  - repeat constructor.
  - unfold String.leb. destruct (String.compare x y) eqn:E.
    + apply String.compare_eq_iff in E. subst. elim Hx. left. reflexivity.
    + constructor; [constructor; assumption|].
      constructor; [exact E|].
      eapply Forall_impl; [|exact F]. intros z Hz. exact (cmp_trans x y z E Hz).
    + constructor; [apply IH; intros Hin; apply Hx; right; exact Hin|].
      apply Forall_forall. intros z Hz.
      apply (Permutation_in _ (insort_Permutation x l)) in Hz.
      destruct Hz as [<-|Hz].
      * unfold key_lt. rewrite (cmp_antisym x y). simpl. rewrite E. reflexivity.
      * rewrite Forall_forall in F. apply F, Hz.
Qed.

Lemma sorted_sorted (l : list string) : NoDup l -> StronglySorted key_lt (sorted l).
Proof.
  induction 1 as [|x l Hx ND IH]; simpl; [constructor|].
  apply insort_sorted; [exact IH|]. rewrite sorted_In. exact Hx.
Qed.

(** Two strictly ascending lists with the same members are one list. *)
Lemma ascending_ext {K : Type} `{KeyLaws K} (l1 l2 : list K) :
  StronglySorted key_lt l1 -> StronglySorted key_lt l2 ->
  (forall x, In x l1 <-> In x l2) -> l1 = l2.
Proof.
  intros S1. revert l2. induction S1 as [|a l1 S1 IH F1]; intros l2 S2 M.
  - destruct l2 as [|b l2]; [reflexivity|]. destruct (proj2 (M b)). left. reflexivity.
  - destruct S2 as [|b l2 S2 F2]; [destruct (proj1 (M a)); left; reflexivity|].
    rewrite Forall_forall in F1, F2.
    assert (a = b) as <-.
    { destruct (proj1 (M a) (or_introl eq_refl)) as [E|Ha]; [congruence|].
      destruct (proj2 (M b) (or_introl eq_refl)) as [E|Hb]; [congruence|].
      exfalso. apply (cmp_irrefl a).
      exact (cmp_trans a b a (F1 b Hb) (F2 a Ha)). }
    f_equal. apply IH; [exact S2|].
    intros x. split; intros Hx.
    + destruct (proj1 (M x) (or_intror Hx)) as [E|Hx']; [|exact Hx'].
      subst. exfalso. exact (cmp_irrefl x (F1 x Hx)).
    + destruct (proj2 (M x) (or_intror Hx)) as [E|Hx']; [|exact Hx'].
      subst. exfalso. exact (cmp_irrefl x (F2 x Hx)).
Qed.

Lemma filter_all {A : Type} (p : A -> bool) (l : list A) :
  Forall (fun a => p a = true) l -> filter p l = l.
Proof.
  induction 1 as [|a l Ha _ IH]; simpl; [reflexivity|]. rewrite Ha, IH. reflexivity.
Qed.

(** X1: with what the two multiselects select by default, every country
    and every product of the table, the filter keeps the whole table, row
    for row; and so it does when everything they offer is selected. *)
Theorem default_selection_keeps_the_table (df : DataFrame) :
  filtered_df df (country_default df) (product_default df) = df
  /\ filtered_df df (country_options df) (product_options df) = df.
Proof.
  rewrite !filtered_df_filter. split; apply filter_all, Forall_forall; intros r Hr;
    unfold selected; apply andb_true_iff; rewrite !isin_In;
    unfold country_default, product_default, country_options, product_options;
    rewrite ?sorted_In, !unique_In; split; apply in_map; exact Hr.
Qed.

(** X2: the countries the sidebar offers are the countries of the table,
    each once, in strictly ascending order: the very keys, in the very
    order, of the rows of [country_sales] on the whole table; and likewise
    the products and [ratio_df]. *)
Theorem options_are_the_group_keys (df : DataFrame) :
  StronglySorted key_lt (country_options df)
  /\ (forall c, In c (country_options df) <-> exists r, In r df /\ Country r = c)
  /\ country_options df = map fst (country_sales df)
  /\ product_options df = map (fun x => fst (fst (fst x))) (ratio_df df).
Proof.
  assert (forall (by_ : Row -> string),
             StronglySorted key_lt (sorted (unique (map by_ df)))
             /\ (forall c, In c (sorted (unique (map by_ df)))
                           <-> exists r, In r df /\ by_ r = c)
             /\ sorted (unique (map by_ df)) = group_keys by_ df) as G.
  { intros by_.
    assert (forall c, In c (sorted (unique (map by_ df)))
                      <-> exists r, In r df /\ by_ r = c) as M.
    { intros c. rewrite sorted_In, unique_In, in_map_iff.
      split; intros (r & H1 & H2); exists r; auto. }
    split; [apply sorted_sorted, unique_NoDup|]. split; [exact M|].
    apply ascending_ext.
    - apply sorted_sorted, unique_NoDup.
    - apply group_keys_sorted.
    - intros x. rewrite M. symmetry. apply group_keys_In. }
  destruct (G Country) as (S & M & E). split; [exact S|]. split; [exact M|]. split.
  - unfold country_options. rewrite E. unfold country_sales, groupby_Amount_sum.
    rewrite map_map. simpl. symmetry. apply groupby_keys.
  - unfold product_options. rewrite (proj2 (proj2 (G Product))).
    unfold ratio_df, groupby_agg. rewrite !map_map. simpl. symmetry. apply groupby_keys.
Qed.

(* ================================================================== *)
(** * The tables of a filtered view *)

Lemma filtered_df_In (df : DataFrame) (countries products : list string) (r : Row) :
  In r (filtered_df df countries products) ->
  In r df /\ In (Country r) countries /\ In (Product r) products.
Proof.
  rewrite filtered_df_filter, filter_In. unfold selected.
  rewrite andb_true_iff, !isin_In. tauto.
Qed.

Lemma firstn_incl {A : Type} (n : nat) (l : list A) (x : A) : In x (firstn n l) -> In x l.
Proof.
  intros Hx. rewrite <- (firstn_skipn n l). apply in_or_app. left. exact Hx.
Qed.

Lemma nlargest_In {K : Type} `{KeyLaws K} (n : nat) (s : list (K * float)) (x : K * float) :
  In x (nlargest n s) -> In x s.
Proof.
  intros Hx. apply firstn_incl in Hx.
  exact (Permutation_in _ (sort_values_desc_Permutation s) Hx).
Qed.

Lemma groupby_Amount_sum_key {K : Type} `{KeyLaws K} (by_ : Row -> K) (df : DataFrame)
      (x : K * float) :
  In x (groupby_Amount_sum by_ df) -> exists r, In r df /\ by_ r = fst x.
Proof. destruct x as [k s]. intros Hx. apply groupby_Amount_sum_In in Hx. apply Hx. Qed.

Lemma groupby_agg_key {K : Type} `{KeyLaws K} (by_ : Row -> K) (df : DataFrame)
      (x : K * float * Z) :
  In x (groupby_agg by_ df) -> exists r, In r df /\ by_ r = fst (fst x).
Proof.
  unfold groupby_agg, groupby. rewrite map_map, in_map_iff. simpl.
  intros (k & <- & Hk). simpl. apply group_keys_In. exact Hk.
Qed.

(** X3: every table of the dashboard speaks of the selection only: the
    countries of [country_sales] are selected countries, the products of
    [top_products] and of [ratio_df] are selected products, and the
    combinations of [top_combos] and of [sunburst_data] are made of both. *)
Theorem tables_hold_the_selection_only (df : DataFrame) (countries products : list string) :
  Forall (fun x => In (fst x) countries)
         (country_sales (filtered_df df countries products))
  /\ Forall (fun x => In (fst x) products)
            (top_products (filtered_df df countries products))
  /\ Forall (fun x => In (fst (fst x)) countries /\ In (snd (fst x)) products)
            (top_combos (filtered_df df countries products))
  /\ Forall (fun x => In (fst (fst x)) countries /\ In (snd (fst x)) products)
            (sunburst_data (filtered_df df countries products))
  /\ Forall (fun x => In (fst (fst (fst x))) products)
            (ratio_df (filtered_df df countries products)).
Proof.
  repeat split; apply Forall_forall; intros x Hx.
  - apply groupby_Amount_sum_key in Hx. destruct Hx as (r & Hr & <-).
    apply filtered_df_In in Hr. tauto.
  - apply nlargest_In, groupby_Amount_sum_key in Hx. destruct Hx as (r & Hr & <-).
    apply filtered_df_In in Hr. tauto.
  - apply nlargest_In, groupby_Amount_sum_key in Hx. destruct Hx as (r & Hr & <-).
    apply filtered_df_In in Hr. simpl. tauto.
  - apply groupby_Amount_sum_key in Hx. destruct Hx as (r & Hr & <-).
    apply filtered_df_In in Hr. simpl. tauto.
  - unfold ratio_df in Hx. apply in_map_iff in Hx. destruct Hx as (y & <- & Hy).
    apply groupby_agg_key in Hy. destruct Hy as (r & Hr & E).
    apply filtered_df_In in Hr. destruct y as [[k a] b]. simpl in *. subst. tauto.
Qed.

(* ================================================================== *)
(** * Dates that load *)

Lemma all_dates_read_back_true : all_dates_read_back = true.
Proof. vm_compute. reflexivity. Qed.

Lemma In_Zrange (lo z : Z) (n : nat) :
  lo <= z < lo + Z.of_nat n -> In z (Zrange lo n).
Proof.
  intros B. unfold Zrange. apply in_map_iff. exists (Z.to_nat (z - lo)). split.
  - lia.
  - apply in_seq. lia.
Qed.

Lemma days_in_month_le_31 (y m : Z) : days_in_month y m <= 31.
Proof.
  unfold days_in_month.
  destruct (m =? 2); [destruct (is_leap y); lia|].
  destruct ((m =? 4) || (m =? 6) || (m =? 9) || (m =? 11))%bool; lia.
Qed.

Lemma valid_date_bounds (d : Timestamp) :
  valid_date d = true ->
  1969 <= year d <= 2068 /\ 1 <= month d <= 12
  /\ 1 <= day d <= days_in_month (year d) (month d).
Proof.
  unfold valid_date. rewrite !andb_true_iff, !Z.leb_le. tauto.
Qed.

Lemma Timestamp_eqb_eq (d e : Timestamp) : Timestamp_eqb d e = true -> d = e.
Proof.
  destruct d, e. unfold Timestamp_eqb. simpl.
  rewrite !andb_true_iff, !Z.eqb_eq. intros [[-> ->] ->]. reflexivity.
Qed.

(** X4: every day of the calendar from 1969 to 2068, written as the file
    writes its dates (two digits, the month's three letters, two digits),
    loads as that very day. *)
Theorem dates_of_the_format_load (d : Timestamp) :
  valid_date d = true -> to_datetime (strftime_d_b_y d) = Some d.
Proof.
  intros V. pose proof (valid_date_bounds d V) as (By & Bm & Bd).
  pose proof (days_in_month_le_31 (year d) (month d)) as B31.
  pose proof all_dates_read_back_true as A. unfold all_dates_read_back in A.
  rewrite forallb_forall in A.
  specialize (A (year d) (In_Zrange 1969 (year d) 100 ltac:(lia))).
  rewrite forallb_forall in A.
  specialize (A (month d) (In_Zrange 1 (month d) 12 ltac:(lia))).
  rewrite forallb_forall in A.
  specialize (A (day d) (In_Zrange 1 (day d) 31 ltac:(lia))).
  destruct d as [y m dd]. simpl in A. unfold reads_back in A. rewrite V in A. simpl in A.
  destruct (to_datetime (strftime_d_b_y {| year := y; month := m; day := dd |})) as [e|];
    [|discriminate].
  apply Timestamp_eqb_eq in A. congruence.
Qed.

Lemma dates_of_the_format_load_witness :
  to_datetime "29-Feb-24" = Some {| year := 2024; month := 2; day := 29 |}.
Proof.
  apply (dates_of_the_format_load {| year := 2024; month := 2; day := 29 |}).
  reflexivity.
Defined.

(* ------------------------------------------------------------------ *)
(** ** What a loaded date can be *)

Lemma is_digit_value (c : ascii) : is_digit c = true -> 0 <= digit_value c <= 9.
Proof.
  unfold is_digit, between, digit_value.
  change (code "0"%char) with 48. change (code "9"%char) with 57.
  rewrite andb_true_iff, !Z.leb_le. lia.
Qed.

Lemma index_of_range (x : string) (l : list string) (i m : Z) :
  index_of x l i = Some m -> i <= m < i + Z.of_nat (List.length l).
Proof.
  revert i. induction l as [|y l IH]; intros i; simpl; [discriminate|].
  destruct (x =? y)%string.
  - intros E. injection E as <-. lia.
  - intros E. apply IH in E. lia.
Qed.

Lemma directive_b_range (s r : list ascii) (m : Z) :
  directive_b s = Some (m, r) -> 1 <= m <= 12.
Proof.
  unfold directive_b. destruct s as [|a [|b [|c s']]]; try discriminate.
  destruct (index_of _ _ 1) as [m'|] eqn:E; [|discriminate].
  intros I. injection I as <- _. apply index_of_range in E. simpl in E. lia.
Qed.

Lemma directive_y_range (s r : list ascii) (y : Z) :
  directive_y s = Some (y, r) -> 1969 <= y <= 2068.
Proof.
  unfold directive_y. destruct s as [|c1 [|c2 s']]; cbn [classes].
  - discriminate.
  - destruct (is_digit c1); discriminate.
  - destruct (is_digit c1) eqn:D1; [|discriminate].
    destruct (is_digit c2) eqn:D2; [|discriminate].
    apply is_digit_value in D1, D2. unfold int_of_digits. cbn [fold_left].
    set (v := 10 * (10 * 0 + digit_value c1) + digit_value c2).
    assert (0 <= v <= 99) as Bv by (unfold v; lia). clearbody v.
    intros I.
    assert (y = if v <=? 68 then 2000 + v else 1900 + v) as -> by congruence.
    destruct (v <=? 68) eqn:L; [apply Z.leb_le in L|apply Z.leb_gt in L]; lia.
Qed.

Lemma after_day_range (s : list ascii) (m y : Z) :
  after_day s = Some (m, y) -> 1 <= m <= 12 /\ 1969 <= y <= 2068.
Proof.
  unfold after_day. destruct s as [|c s1]; [discriminate|].
  destruct (Ascii.eqb_spec c "-"%char) as [->|N].
  - destruct (directive_b s1) as [[m' r]|] eqn:Eb; [|discriminate].
    destruct r as [|c' s2]; [discriminate|].
    destruct (Ascii.eqb_spec c' "-"%char) as [->|N'].
    + destruct (directive_y s2) as [[y' r']|] eqn:Ey; [|discriminate].
      destruct r'; [|discriminate]. intros I. injection I as <- <-.
      split; [eapply directive_b_range|eapply directive_y_range]; eassumption.
    + destruct c' as [[] [] [] [] [] [] [] []]; try discriminate. congruence.
  - destruct c as [[] [] [] [] [] [] [] []]; try discriminate. congruence.
Qed.

Lemma strptime_range (alts : list (list (ascii -> bool))) (s : list ascii) (d : Timestamp) :
  strptime alts s = Some d -> 1 <= month d <= 12 /\ 1969 <= year d <= 2068.
Proof.
  induction alts as [|alt alts IH]; simpl; [discriminate|].
  destruct (classes alt s) as [[m r]|]; [|exact IH].
  destruct (after_day r) as [[mo y]|] eqn:E; [|exact IH].
  intros I. injection I as <-. simpl. eapply after_day_range. exact E.
Qed.

Lemma to_datetime_valid (s : string) (d : Timestamp) :
  to_datetime s = Some d -> valid_date d = true.
Proof.
  unfold to_datetime.
  destruct (strptime directive_d (list_ascii_of_string s)) as [d'|] eqn:E; [|discriminate].
  destruct ((1 <=? day d') && (day d' <=? days_in_month (year d') (month d')))%bool eqn:B;
    [|discriminate].
  intros I. injection I as <-. apply strptime_range in E.
  unfold valid_date. apply andb_true_iff in B. destruct B as [B1 B2].
  apply Z.leb_le in B1, B2. rewrite !andb_true_iff, !Z.leb_le.
  destruct E as [[E1 E2] [E3 E4]]. repeat split; assumption.
Qed.

Lemma month_name_in_order (d : Timestamp) :
  1 <= month d <= 12 -> In (month_name d) month_order.
Proof.
  intros B. unfold month_name. apply nth_In.
  change (List.length month_order) with 12%nat. lia.
Qed.

(* ================================================================== *)
(** * What [load_data] returns and when it raises *)

Lemma dropna_dates (csv : list RawRow) (amounts : list float) :
  Forall (fun x => to_datetime (raw_Date (fst (fst x))) = Some (snd x))
         (dropna (combine csv
            (combine amounts (map (fun r => to_datetime (raw_Date r)) csv)))).
Proof.
  revert amounts. induction csv as [|r csv IH]; intros [|a amounts]; simpl;
    try constructor.
  destruct (to_datetime (raw_Date r)) as [d|] eqn:E; [constructor|]; auto.
Qed.

Lemma derive_consistent (x : RawRow * float * Timestamp) :
  to_datetime (raw_Date (fst (fst x))) = Some (snd x) -> consistent (derive x).
Proof.
  destruct x as [[r a] d]. simpl. intros E. apply to_datetime_valid in E.
  unfold consistent. simpl. repeat split; try assumption.
  apply month_name_in_order. apply valid_date_bounds in E. tauto.
Qed.

Lemma load_data_consistent (csv : list RawRow) (df : DataFrame) :
  load_data csv = Ok df -> Forall consistent df.
Proof.
  unfold load_data, str_accessor.
  destruct (is_object_dtype (map raw_Amount csv)); simpl; [|discriminate].
  destruct (traverse astype_float (map replace (map raw_Amount csv))) as [amounts|e];
    simpl; [|discriminate].
  intros E. injection E as <-. apply Forall_map.
  eapply Forall_impl; [|apply dropna_dates]. intros x. apply derive_consistent.
Qed.

(** X5: every row of a loaded table, and so of every filtered view of it,
    has a date that is a day of the calendar between 1969 and 2068, a
    [Month] that is the name of that date's month and one of [month_order],
    a [Year] that is that date's year, and for [Revenue per Box] the
    quotient of its amount by its boxes. *)
Theorem loaded_rows_are_consistent
    (csv : list RawRow) (df : DataFrame) (countries products : list string) :
  load_data csv = Ok df ->
  Forall consistent df /\ Forall consistent (filtered_df df countries products).
Proof.
  intros L. apply load_data_consistent in L. split; [exact L|].
  rewrite Forall_forall in L |- *. intros r Hr. apply L.
  apply filtered_df_In in Hr. tauto.
Qed.

Lemma loaded_rows_are_consistent_witness :
  Forall consistent scenario_df
  /\ Forall consistent (filtered_df scenario_df ["USA"] ["70% Dark Bites"]).
Proof.
  apply (loaded_rows_are_consistent scenario_csv scenario_df). reflexivity.
Defined.

(* ------------------------------------------------------------------ *)









(* ------------------------------------------------------------------ *)

Lemma str_replace_app (s1 s2 : string) :
  str_replace (s1 ++ s2) = (str_replace s1 ++ str_replace s2)%string.
Proof.
  induction s1 as [|c s1 IH]; simpl; [reflexivity|].
  rewrite IH. destruct ((c =? "$")%char || (c =? ",")%char)%bool; reflexivity.
Qed.

Lemma str_replace_clean (s : string) :
  Forall (fun c => c <> "$"%char /\ c <> ","%char) (list_ascii_of_string (str_replace s)).
Proof.
  induction s as [|c s IH]; simpl; [constructor|].
  destruct (Ascii.eqb_spec c "$"%char) as [->|N1]; simpl; [exact IH|].
  destruct (Ascii.eqb_spec c ","%char) as [->|N2]; simpl; [exact IH|].
  constructor; auto.
Qed.

Lemma str_replace_idempotent (s : string) : str_replace (str_replace s) = str_replace s.
Proof.
  induction s as [|c s IH]; simpl; [reflexivity|].
  destruct ((c =? "$")%char || (c =? ",")%char)%bool eqn:E; [exact IH|].
  simpl. rewrite E, IH. reflexivity.
Qed.

(** X7: a dollar sign or a comma counts for nothing wherever it stands in
    an amount: the text with one more of them anywhere converts to the same
    number, or fails the same way (the loader does not check that the
    dollar sign leads or that the commas set off thousands); what is left
    to convert holds neither, and stripping twice is stripping once. *)
Theorem stripped_signs_do_not_count (s1 s2 : string) :
  astype_float (replace (str (s1 ++ String "$"%char s2)))
  = astype_float (replace (str (s1 ++ s2)))
  /\ astype_float (replace (str (s1 ++ String ","%char s2)))
     = astype_float (replace (str (s1 ++ s2)))
  /\ Forall (fun c => c <> "$"%char /\ c <> ","%char)
            (list_ascii_of_string (str_replace s1))
  /\ str_replace (str_replace s1) = str_replace s1.
Proof.
  split; [|split; [|split]].
  - simpl. rewrite !str_replace_app. reflexivity.
  - simpl. rewrite !str_replace_app. reflexivity.
  - apply str_replace_clean.
  - apply str_replace_idempotent.
Qed.

(* ================================================================== *)
(** * The "Country Performance" gauge *)

Lemma groupby_Amount_sum_nil {K : Type} `{KeyLaws K} (by_ : Row -> K) (df : DataFrame) :
  groupby_Amount_sum by_ df = [] <-> df = [].
Proof.
  split; [|intros ->; reflexivity].
  destruct df as [|r df]; [reflexivity|]. intros E. exfalso.
  assert (In (by_ r) (group_keys by_ (r :: df))) as Hin
      by (apply group_keys_In; exists r; split; [left|]; reflexivity).
  apply (f_equal (@List.length _)) in E.
  rewrite groupby_Amount_sum_length in E.
  destruct (group_keys by_ (r :: df)); [contradiction|discriminate].
Qed.

Lemma idxmax_raises {K : Type} (s : list (K * float)) :
  (s = [] -> idxmax s = Raise ValueError)
  /\ (s <> [] -> idxmax s = Ok (option_map fst (argmax s))).
Proof. destruct s; split; intros E; congruence || reflexivity. Qed.


Lemma leb_ltb_trans (x y z : float) : leb x y = true -> ltb y z = true -> ltb x z = true.
Proof.
  unfold ltb. intros L1 L2. destruct (leb z x) eqn:E; [|reflexivity].
  rewrite (leb_trans z x y E L1) in L2. discriminate.
Qed.

Section ArgMax.
Context {K : Type}.

Lemma argmax_snoc (s : list (K * float)) (x : K * float) :
  argmax (s ++ [x])
  = if isnan (snd x) then argmax s
    else match argmax s with
         | None => Some x
         | Some b => if ltb (snd b) (snd x) then Some x else argmax s
         end.
Proof. unfold argmax. rewrite fold_left_app. reflexivity. Qed.

Lemma max_snoc (l : list float) (x : float) :
  max (l ++ [x])
  = if isnan x then max l else if isnan (max l) then x
    else if ltb (max l) x then x else max l.
Proof. unfold max. rewrite fold_left_app. reflexivity. Qed.

(** On a series without [nan] and with a row, [argmax] is the first row
    that holds the largest value, and [max] is that value. *)
Lemma argmax_first_largest (s : list (K * float)) :
  Forall (fun x => isnan (snd x) = false) s -> s <> [] ->
  exists l1 k m l2,
    s = (l1 ++ (k, m) :: l2)%list
    /\ argmax s = Some (k, m)
    /\ max (map snd s) = m
    /\ isnan m = false
    /\ Forall (fun x => ltb (snd x) m = true) l1
    /\ Forall (fun x => leb (snd x) m = true) l2.
Proof.
  induction s as [|x s IH] using rev_ind; intros F N; [congruence|].
  apply Forall_app in F. destruct F as [F Fx]. inversion Fx as [|? ? Nx _]; subst.
  rewrite argmax_snoc, map_app. change (map snd [x]) with [snd x].
  rewrite max_snoc, Nx.
  destruct s as [|y s'].
  - exists [], (fst x), (snd x), []. simpl. destruct x. simpl. repeat split; auto.
  - destruct (IH F ltac:(discriminate)) as (l1 & k & m & l2 & E & A & M & Nm & F1 & F2).
    rewrite A, M, Nm. simpl snd.
    destruct (ltb m (snd x)) eqn:L.
    + exists (y :: s'), (fst x), (snd x), []. destruct x as [kx vx]. simpl in *.
      repeat split; auto.
      rewrite E. apply Forall_app. split; [|constructor].
      * eapply Forall_impl; [|exact F1]. intros z Hz.
        eapply leb_ltb_trans; [apply ltb_leb; exact Hz|exact L].
      * exact L.
      * eapply Forall_impl; [|exact F2]. intros z Hz.
        eapply leb_ltb_trans; [exact Hz|exact L].
    + exists l1, k, m, (l2 ++ [x])%list. rewrite E, <- app_assoc. simpl.
      repeat split; auto.
      apply Forall_app. split; [exact F2|]. constructor; [|constructor].
      unfold ltb in L. apply negb_false_iff in L. exact L.
Qed.
End ArgMax.

Lemma StronglySorted_after {A : Type} (R : A -> A -> Prop) (l1 l2 : list A) (a : A) :
  StronglySorted R (l1 ++ a :: l2) -> Forall (R a) l2.
Proof.
  induction l1 as [|x l1 IH]; simpl; intros S; inversion S; subst; auto.
Qed.

Lemma leb_refl (x : float) : leb x x = true.
Proof. destruct (leb_total x x); assumption. Qed.

Lemma groupby_Amount_sum_not_nan {K : Type} `{KeyLaws K} (by_ : Row -> K) (df : DataFrame) :
  Forall (fun r => not_inf (Amount r) = true) df ->
  Forall (fun x => isnan (snd x) = false) (groupby_Amount_sum by_ df).
Proof.
  intros F. unfold groupby_Amount_sum, groupby. rewrite map_map. simpl.
  apply Forall_map, Forall_forall. intros k _. simpl.
  rewrite sum_qsum; [reflexivity|]. apply Forall_not_inf_filter, F.
Qed.

(** X9: on a view with a row and no infinite amount the gauge is well
    defined: [top_country] is a country of the view, [max_sales] is that
    country's sum, no country's sum is larger, and of the countries that
    reach it [top_country] is the first in ascending order of the names. *)
Theorem gauge_names_the_first_largest_country (filtered_df : DataFrame) :
  filtered_df <> [] ->
  Forall (fun r => not_inf (Amount r) = true) filtered_df ->
  exists c m,
    top_country filtered_df = Ok (Some c)
    /\ max_sales filtered_df = m
    /\ In (c, m) (country_sales filtered_df)
    /\ Forall (fun x => leb (snd x) m = true) (country_sales filtered_df)
    /\ Forall (fun x => leb m (snd x) = true -> fst x = c \/ key_lt c (fst x))
              (country_sales filtered_df).
Proof.
  intros N F. unfold top_country, max_sales.
  assert (country_sales filtered_df <> []) as Ns
      by (unfold country_sales; rewrite groupby_Amount_sum_nil; exact N).
  pose proof (groupby_Amount_sum_by_key Country filtered_df) as S.
  fold (country_sales filtered_df) in S.
  destruct (argmax_first_largest (country_sales filtered_df)
              (groupby_Amount_sum_not_nan Country filtered_df F) Ns)
    as (l1 & c & m & l2 & E & A & M & Nm & F1 & F2).
  exists c, m. rewrite (proj2 (idxmax_raises _) Ns), A, M.
  split; [reflexivity|]. split; [reflexivity|]. rewrite E in S |- *.
  split; [apply in_or_app; right; left; reflexivity|].
  split; apply Forall_app; split; try constructor.
  - eapply Forall_impl; [|exact F1]. intros x. apply ltb_leb.
  - apply leb_refl.
  - exact F2.
  - eapply Forall_impl; [|exact F1]. intros x L1 L2.
    unfold ltb in L1. simpl in L2. rewrite L2 in L1. discriminate.
  - intros _. left. reflexivity.
  - apply StronglySorted_after in S.
    eapply Forall_impl; [|exact S]. intros x Hx _. right. exact Hx.
Qed.

Lemma gauge_names_the_first_largest_country_witness :
  exists c m,
    top_country tie_df = Ok (Some c)
    /\ max_sales tie_df = m
    /\ In (c, m) (country_sales tie_df)
    /\ Forall (fun x => leb (snd x) m = true) (country_sales tie_df)
    /\ Forall (fun x => leb m (snd x) = true -> fst x = c \/ key_lt c (fst x))
              (country_sales tie_df).
Proof.
  apply (gauge_names_the_first_largest_country tie_df).
  - discriminate.
  - repeat constructor.
Defined.

Example gauge_of_a_tie : top_country tie_df = Ok (Some "Canada").
Proof. reflexivity. Qed.

(* ================================================================== *)
(** * Quotients *)









(* ================================================================== *)
(** * Boxes *)

Lemma int64_small (z : Z) : - 2 ^ 63 <= z < 2 ^ 63 -> int64 z = z.
Proof. intros B. unfold int64. rewrite Z.mod_small; lia. Qed.

Lemma int64_range (z : Z) : - 2 ^ 63 <= int64 z < 2 ^ 63.
Proof.
  unfold int64. pose proof (Z.mod_pos_bound (z + 2 ^ 63) (2 ^ 64) ltac:(lia)). lia.
Qed.

Lemma sum_int64_acc (l : list Z) (acc : Z) :
  0 <= acc -> Forall (fun z => 0 <= z) l -> acc + zsum l < 2 ^ 63 ->
  fold_left (fun acc x => int64 (acc + x)) l acc = acc + zsum l.
Proof.
  intros A F. revert acc A. induction F as [|z l Hz F IH]; intros acc A B; simpl in *.
  - lia.
  - assert (0 <= zsum l) as P by (clear - F; induction F; simpl; lia).
    rewrite int64_small by lia. rewrite IH; lia.
Qed.

Lemma sum_int64_range (l : list Z) (acc : Z) :
  - 2 ^ 63 <= acc < 2 ^ 63 ->
  - 2 ^ 63 <= fold_left (fun acc x => int64 (acc + x)) l acc < 2 ^ 63.
Proof.
  revert acc. induction l as [|z l IH]; intros acc A; simpl; [exact A|].
  apply IH, int64_range.
Qed.

(** X12: when no row ships a negative count and the counts add up to less
    than 2^63, "Total Boxes Shipped" is their exact sum: the 64-bit
    addition never wraps. *)
Theorem total_boxes_is_exact_when_it_fits (filtered_df : DataFrame) :
  Forall (fun r => 0 <= Boxes_Shipped r) filtered_df ->
  zsum (map Boxes_Shipped filtered_df) < 2 ^ 63 ->
  total_boxes filtered_df = zsum (map Boxes_Shipped filtered_df)
  /\ 0 <= total_boxes filtered_df.
Proof.
  intros F B. unfold total_boxes, sum_int64.
  rewrite sum_int64_acc; [| lia | apply Forall_map; exact F | lia].
  split; [lia|].
  assert (0 <= zsum (map Boxes_Shipped filtered_df)); [|lia].
  clear B. induction F; simpl; lia.
Qed.

Lemma total_boxes_is_exact_when_it_fits_witness :
  total_boxes scenario_df = zsum (map Boxes_Shipped scenario_df)
  /\ 0 <= total_boxes scenario_df.
Proof.
  apply (total_boxes_is_exact_when_it_fits scenario_df).
  - repeat constructor; simpl; lia.
  - vm_compute. reflexivity.
Defined.

(** Beyond that the sum wraps around, as int64 sums do. *)
Example total_boxes_wraps :
  total_boxes [ sale "India" "Milk Bars" (jan 4) 1 (2 ^ 62);
                sale "India" "Milk Bars" (jan 5) 1 (2 ^ 62) ] = - 2 ^ 63.
Proof. reflexivity. Qed.

(* ================================================================== *)
(** * The order of the grouped tables *)

Lemma StronglySorted_impl {A : Type} (R R' : A -> A -> Prop) (l : list A) :
  (forall x y, R x y -> R' x y) -> StronglySorted R l -> StronglySorted R' l.
Proof.
  intros I. induction 1 as [|a l S IH F]; constructor; [exact IH|].
  eapply Forall_impl; [|exact F]. intros y. apply I.
Qed.

Lemma Timestamp_lt (d e : Timestamp) :
  key_lt d e ->
  year d < year e
  \/ (year d = year e
      /\ (month d < month e \/ (month d = month e /\ day d < day e))).
Proof.
  unfold key_lt, cmp, Key_Timestamp, cmp, Key_pair, cmp, Key_Z. cbn [fst snd].
  destruct (Z.compare_spec (year d) (year e)) as [Ey|Ly|Gy]; try discriminate; [|auto].
  destruct (Z.compare_spec (month d) (month e)) as [Em|Lm|Gm]; try discriminate; [|auto].
  intros L. apply Z.compare_lt_iff in L. auto.
Qed.

Lemma year_month_lt (k1 k2 : Z * string) :
  key_lt k1 k2 ->
  fst k1 < fst k2 \/ (fst k1 = fst k2 /\ String.compare (snd k1) (snd k2) = Lt).
Proof.
  unfold key_lt, cmp, Key_pair, cmp, Key_Z, Key_string.
  destruct (Z.compare_spec (fst k1) (fst k2)) as [Ey|Ly|Gy]; try discriminate; auto.
Qed.

Lemma key_eqb_Timestamp (d e : Timestamp) : key_eqb d e = Timestamp_eqb d e.
Proof.
  apply eq_true_iff_eq. rewrite key_eqb_eq. split; [|apply Timestamp_eqb_eq].
  intros <-. unfold Timestamp_eqb. rewrite !Z.eqb_refl. reflexivity.
Qed.

(** X13: [daily_sales] has one row for each date of the view, with the sum
    of the amounts of that date, and its rows go forward in time: of two
    rows the earlier one holds the earlier year, or the earlier month of
    the same year, or the earlier day of the same month. *)
Theorem daily_sales_goes_forward_in_time (filtered_df : DataFrame) :
  StronglySorted
    (fun x y =>
       year (fst x) < year (fst y)
       \/ (year (fst x) = year (fst y)
           /\ (month (fst x) < month (fst y)
               \/ (month (fst x) = month (fst y) /\ day (fst x) < day (fst y)))))
    (daily_sales filtered_df)
  /\ (forall d s,
         In (d, s) (daily_sales filtered_df)
         <-> (exists r, In r filtered_df /\ Date r = d)
             /\ s = sum (map Amount
                          (filter (fun r => Timestamp_eqb (Date r) d) filtered_df))).
Proof.
  split.
  - eapply StronglySorted_impl; [|apply (groupby_Amount_sum_by_key Date)].
    intros x y. apply Timestamp_lt.
  - intros d s. unfold daily_sales. rewrite groupby_Amount_sum_In.
    rewrite (filter_ext (fun r => key_eqb (Date r) d)
                        (fun r => Timestamp_eqb (Date r) d))
      by (intros r; apply key_eqb_Timestamp).
    reflexivity.
Qed.

(** X14: [monthly_sales] has one row for each year and month of the view,
    the years ascending and, within a year, the months in the alphabetical
    order of their names (April first, September last), not in the order of
    the calendar. *)
Theorem monthly_sales_orders_months_by_name (filtered_df : DataFrame) :
  StronglySorted
    (fun x y =>
       fst (fst x) < fst (fst y)
       \/ (fst (fst x) = fst (fst y)
           /\ String.compare (snd (fst x)) (snd (fst y)) = Lt))
    (monthly_sales filtered_df)
  /\ (forall y m s,
         In (y, m, s) (monthly_sales filtered_df)
         <-> (exists r, In r filtered_df /\ Year r = y /\ Month r = m)
             /\ s = sum (map Amount
                          (filter (fun r => (Year r =? y) && (Month r =? m)%string)
                                  filtered_df))).
Proof.
  split.
  - eapply StronglySorted_impl;
      [|apply (groupby_Amount_sum_by_key (fun r => (Year r, Month r)))].
    intros x y. apply year_month_lt.
  - intros y m s. unfold monthly_sales. rewrite groupby_Amount_sum_In.
    rewrite (filter_ext (fun r => key_eqb (Year r, Month r) (y, m))
                        (fun r => (Year r =? y) && (Month r =? m)%string)).
    + split; intros [(r & Hr & E) Hs]; (split; [|exact Hs]); exists r.
      * injection E as E1 E2. auto.
      * destruct E as [E1 E2]. rewrite E1, E2. auto.
    + intros r. apply eq_true_iff_eq.
      rewrite key_eqb_eq, andb_true_iff, Z.eqb_eq, String.eqb_eq.
      split; [intros E; injection E; auto|intros [-> ->]; reflexivity].
Qed.

Example monthly_sales_april_before_january :
  monthly_sales [ sale "India" "Milk Bars" {| year := 2022; month := 1; day := 4 |} 10 1;
                  sale "India" "Milk Bars" {| year := 2022; month := 4; day := 4 |} 20 1 ]
  = [ (2022, "April", Fin 20); (2022, "January", Fin 10) ].
Proof. reflexivity. Qed.

(* ================================================================== *)
(** * The other top-ten tables *)

(** X15: [top_products] is the first 10 rows (all of them when there are
    fewer) of the per-product sums put in descending order, two equal sums
    in ascending order of the product's name; the pie's [product_sales] is
    the same table; and [top_days] is the same of the per-date sums, two
    equal sums the earlier date first. *)
Theorem top_products_and_top_days_ranked (filtered_df : DataFrame) :
  (exists rest,
      Permutation (top_products filtered_df ++ rest)
                  (groupby_Amount_sum Product filtered_df)
      /\ StronglySorted ranks_before (top_products filtered_df ++ rest))
  /\ List.length (top_products filtered_df)
     = Nat.min 10 (List.length (groupby_Amount_sum Product filtered_df))
  /\ product_sales filtered_df = top_products filtered_df
  /\ (exists rest,
         Permutation (map fst (top_days filtered_df) ++ rest) (daily_sales filtered_df)
         /\ StronglySorted ranks_before (map fst (top_days filtered_df) ++ rest))
  /\ List.length (top_days filtered_df)
     = Nat.min 10 (List.length (daily_sales filtered_df)).
Proof.
  assert (map fst (top_days filtered_df) = nlargest 10 (daily_sales filtered_df)) as E.
  { unfold top_days. rewrite map_map. simpl. apply map_id. }
  split; [|split; [|split; [|split]]].
  - eexists. apply nlargest_rest, groupby_Amount_sum_by_key.
  - apply nlargest_length.
  - reflexivity.
  - rewrite E. eexists. apply nlargest_rest, groupby_Amount_sum_by_key.
  - rewrite <- (length_map fst), E. apply nlargest_length.
Qed.

(* ================================================================== *)
(** * Sums of the other tables *)








(* ================================================================== *)
(** * Weekdays and labels *)

Lemma day_name_in_order (d : Timestamp) : In (day_name d) weekday_order.
Proof.
  unfold day_name. apply nth_In. change (List.length weekday_order) with 7%nat.
  pose proof (Z.mod_pos_bound (days_from_civil d + 3) 7 ltac:(lia)). lia.
Qed.

(** X18: [weekday_sales] is [daily_sales] with one more column, and what
    that column holds is always one of the seven names of [weekday_order],
    whatever the date: no bar of the box plot falls outside the categories
    the chart is given. *)
Theorem weekday_sales_names_a_weekday (filtered_df : DataFrame) :
  map fst (weekday_sales filtered_df) = daily_sales filtered_df
  /\ Forall (fun x => In (snd x) weekday_order) (weekday_sales filtered_df).
Proof.
  unfold weekday_sales. split.
  - rewrite map_map. simpl. apply map_id.
  - apply Forall_map, Forall_forall. intros x _. apply day_name_in_order.
Qed.

Lemma digit_char_inj (a b : Z) : digit_char a = digit_char b -> a mod 10 = b mod 10.
Proof.
  unfold digit_char. change (code "0"%char) with 48. intros E.
  pose proof (Z.mod_pos_bound a 10 ltac:(lia)) as Ba.
  pose proof (Z.mod_pos_bound b 10 ltac:(lia)) as Bb.
  apply (f_equal N_of_ascii) in E.
  rewrite !N_ascii_embedding in E by lia. lia.
Qed.

Lemma date_digits_inj (d e : Timestamp) :
  1 <= day d <= 31 -> 1 <= day e <= 31 ->
  1969 <= year d <= 2068 -> 1969 <= year e <= 2068 ->
  (string_of_list_ascii (two_digits (day d))
   ++ ", " ++ string_of_list_ascii (four_digits (year d)))%string
  = (string_of_list_ascii (two_digits (day e))
     ++ ", " ++ string_of_list_ascii (four_digits (year e)))%string ->
  day d = day e /\ year d = year e.
Proof.
  intros Dd De Yd Ye H. unfold two_digits, four_digits in H.
  cbn [string_of_list_ascii append] in H.
  injection H as H1 H2 H3 H4 H5 H6.
  apply digit_char_inj in H1, H2, H3, H4, H5, H6.
  split; Z.div_mod_to_equations; lia.
Qed.

Lemma strftime_inj (d e : Timestamp) :
  valid_date d = true -> valid_date e = true -> strftime d = strftime e -> d = e.
Proof.
  intros Vd Ve H.
  apply valid_date_bounds in Vd, Ve.
  destruct Vd as (Yd & Md & Dd), Ve as (Ye & Me & De).
  pose proof (days_in_month_le_31 (year d) (month d)) as Ld.
  pose proof (days_in_month_le_31 (year e) (month e)) as Le.
  unfold strftime in H.
  remember (string_of_list_ascii (two_digits (day d))
            ++ ", " ++ string_of_list_ascii (four_digits (year d)))%string as td eqn:Etd.
  remember (string_of_list_ascii (two_digits (day e))
            ++ ", " ++ string_of_list_ascii (four_digits (year e)))%string as te eqn:Ete.
  assert (month d = month e /\ td = te) as [Em Et].
  { assert (month d = 1 \/ month d = 2 \/ month d = 3 \/ month d = 4 \/ month d = 5
            \/ month d = 6 \/ month d = 7 \/ month d = 8 \/ month d = 9
            \/ month d = 10 \/ month d = 11 \/ month d = 12) as Cd by lia.
    assert (month e = 1 \/ month e = 2 \/ month e = 3 \/ month e = 4 \/ month e = 5
            \/ month e = 6 \/ month e = 7 \/ month e = 8 \/ month e = 9
            \/ month e = 10 \/ month e = 11 \/ month e = 12) as Ce by lia.
    clear - H Cd Ce.
    repeat (destruct Cd as [Cd|Cd]); repeat (destruct Ce as [Ce|Ce]);
      rewrite Cd, Ce in H |- *; simpl in H; try discriminate H;
      injection H as H; auto. }
  subst td te.
  destruct (date_digits_inj d e) as [Ed Ey]; try lia; [exact Et|].
  destruct d, e. simpl in *. congruence.
Qed.

Lemma NoDup_map_in {A B : Type} (f : A -> B) (l : list A) :
  (forall x y, In x l -> In y l -> f x = f y -> x = y) -> NoDup l -> NoDup (map f l).
Proof.
  intros I ND. induction ND as [|a l Ha ND IH]; simpl; constructor.
  - rewrite in_map_iff. intros (x & E & Hx).
    apply Ha. rewrite (I a x); auto with datatypes.
  - apply IH. intros x y Hx Hy. apply I; auto with datatypes.
Qed.

Lemma NoDup_firstn {A : Type} (n : nat) (l : list A) : NoDup l -> NoDup (firstn n l).
Proof.
  intros ND. rewrite <- (firstn_skipn n l) in ND. eapply NoDup_app_remove_r. exact ND.
Qed.

Lemma nlargest_keys {K : Type} `{KeyLaws K} (by_ : Row -> K) (n : nat) (df : DataFrame) :
  NoDup (map fst (nlargest n (groupby_Amount_sum by_ df)))
  /\ Forall (fun k => exists r, In r df /\ by_ r = k)
            (map fst (nlargest n (groupby_Amount_sum by_ df))).
Proof.
  split.
  - unfold nlargest. rewrite <- firstn_map. apply NoDup_firstn.
    eapply Permutation_NoDup;
      [symmetry; apply Permutation_map, sort_values_desc_Permutation|].
    unfold groupby_Amount_sum. rewrite map_map. simpl.
    rewrite groupby_keys. apply group_keys_NoDup.
  - apply Forall_map, Forall_forall. intros x Hx.
    apply nlargest_In, groupby_Amount_sum_key in Hx. exact Hx.
Qed.

(** X19: on a view whose dates are days of the calendar between 1969 and
    2068, as [load_data] makes them, the labels of [top_days] are all
    different: two days never share a bar. *)
Theorem top_days_labels_are_distinct (filtered_df : DataFrame) :
  Forall (fun r => valid_date (Date r) = true) filtered_df ->
  NoDup (map snd (top_days filtered_df)).
Proof.
  intros V. unfold top_days. rewrite map_map. simpl.
  destruct (nlargest_keys Date 10 filtered_df) as [ND F].
  rewrite <- (map_map fst strftime). apply NoDup_map_in; [|exact ND].
  rewrite Forall_forall in F, V.
  intros x y Hx Hy. destruct (F x Hx) as (r & Hr & <-). destruct (F y Hy) as (r' & Hr' & <-).
  apply strftime_inj; apply V; assumption.
Qed.

Lemma top_days_labels_are_distinct_witness : NoDup (map snd (top_days scenario_df)).
Proof.
  apply (top_days_labels_are_distinct scenario_df). repeat constructor.
Defined.

(* ================================================================== *)
(** * Wider and narrower selections *)

Lemma Subsequence_filter_impl {A : Type} (p q : A -> bool) (l : list A) :
  (forall a, p a = true -> q a = true) -> Subsequence (filter p l) (filter q l).
Proof.
  intros I. induction l as [|a l IH]; simpl; [constructor|].
  destruct (p a) eqn:P.
  - rewrite (I a P). apply Subsequence_keep. exact IH.
  - destruct (q a); [apply Subsequence_skip|]; exact IH.
Qed.

(** X20: selecting more never hides a row: when every selected country and
    product stays selected, the old view is the new view with some rows
    left out, the others in place; and filtering the view again with the
    same selection changes nothing. *)
Theorem wider_selection_wider_view
    (df : DataFrame) (countries countries' products products' : list string) :
  incl countries countries' -> incl products products' ->
  Subsequence (filtered_df df countries products) (filtered_df df countries' products')
  /\ filtered_df (filtered_df df countries products) countries products
     = filtered_df df countries products.
Proof.
  intros Ic Ip. rewrite !filtered_df_filter. split.
  - apply Subsequence_filter_impl. intros r. unfold selected.
    rewrite !andb_true_iff, !isin_In. intros [Hc Hp]. auto.
  - apply filter_all, Forall_forall. intros r Hr. apply filter_In in Hr. apply Hr.
Qed.

Lemma wider_selection_wider_view_witness :
  Subsequence (filtered_df atlantis_df ["India"] ["Milk Bars"])
              (filtered_df atlantis_df ["Atlantis"; "India"] ["Milk Bars"])
  /\ filtered_df (filtered_df atlantis_df ["India"] ["Milk Bars"]) ["India"] ["Milk Bars"]
     = filtered_df atlantis_df ["India"] ["Milk Bars"].
Proof.
  apply (wider_selection_wider_view atlantis_df).
  - intros x Hx. simpl in *. tauto.
  - intros x Hx. exact Hx.
Defined.
